(** * xraycheck: the Hysteria 2 checker and speed test

    A shallow embedding of [hysteria_checker.py] and [speedtest_hysteria.py].

    One validation task is a computation over an explicit state: the port
    pool, the transient files on disk, and the log of the actions the task
    performed, in order.  Everything the operating system and the network
    decide (whether the client starts, when it exits, what a probe returns,
    what the clock reads) is supplied by an environment record, so a task
    can be run on any scenario.  Times are Python floats, that is binary64
    numbers, and are modelled by Rocq's primitive floats. *)

From Stdlib Require Import ZArith List String Bool Lia Floats Permutation.
Import ListNotations.

Set Warnings "-inexact-float".
Local Open Scope string_scope.
Local Open Scope Z_scope.

(** ** Python values *)

Module Py.

(** The exceptions the two programs raise or handle. *)
Inductive Exc : Type :=
| FileNotFoundError
| ProcessLookupError
| TimeoutExpired
| PermissionError
| IOError
| UnboundLocalError
| RequestException.

Definition Exc_eqb (a b : Exc) : bool :=
  match a, b with
  | FileNotFoundError, FileNotFoundError
  | ProcessLookupError, ProcessLookupError
  | TimeoutExpired, TimeoutExpired
  | PermissionError, PermissionError
  | IOError, IOError
  | UnboundLocalError, UnboundLocalError
  | RequestException, RequestException => true
  | _, _ => false
  end.

(** [bool(s)] for a string. *)
Definition str_truthy (s : string) : bool :=
  match s with EmptyString => false | String _ _ => true end.

(** [bool(x)] for a value that may be [None]. *)
Definition opt_truthy {A : Type} (truthy : A -> bool) (x : option A) : bool :=
  match x with None => false | Some a => truthy a end.

(** [bool(l)] for a list. *)
Definition list_truthy {A : Type} (l : list A) : bool :=
  match l with [] => false | _ :: _ => true end.

(** [range(n)]: empty when [n <= 0]. *)
Definition range (n : Z) : list nat := seq 0 (Z.to_nat n).

(** [float(z)] for an integer: the nearest binary64 number. *)
Definition float_of_Z (z : Z) : float :=
  SF2Prim (binary_normalize prec emax z 0 false).

(** [sum(l)] for a list of floats.  The repository names no interpreter
    version, and CPython changed [sum] in 3.12.  Up to 3.11 the items are
    added left to right, starting from [0].  From 3.12 on, once the running
    total is a float, [sum] keeps a compensation term next to it
    (Neumaier's summation) and adds it at the end if it is not zero and is
    finite. *)
Inductive Summation : Type :=
| Plain        (* CPython up to 3.11 *)
| Compensated. (* CPython 3.12 and later *)

Definition sum_plain (l : list float) : float :=
  fold_left PrimFloat.add l (float_of_Z 0).

Fixpoint neumaier (l : list float) (f_result c : float) : float :=
  match l with
  | [] =>
      if negb (PrimFloat.is_zero c) && PrimFloat.is_finite c
      then (f_result + c)%float else f_result
  | x :: l' =>
      let t := (f_result + x)%float in
      let c' :=
        if (PrimFloat.abs x <=? PrimFloat.abs f_result)%float
        then (c + ((f_result - t) + x))%float
        else (c + ((x - t) + f_result))%float in
      neumaier l' t c'
  end.

Definition sum_compensated (l : list float) : float :=
  match l with
  | [] => float_of_Z 0
  | x :: l' => neumaier l' (float_of_Z 0 + x)%float 0%float
  end.

Definition sum (impl : Summation) (l : list float) : float :=
  match impl with
  | Plain => sum_plain l
  | Compensated => sum_compensated l
  end.

(** [d.get(k)] for a dict with string keys, as an association list. *)
Fixpoint dict_get {V : Type} (d : list (string * V)) (k : string) : option V :=
  match d with
  | [] => None
  | (k', v) :: d' => if (k' =? k)%string then Some v else dict_get d' k
  end.

(** [round(x, 2)] for a float [x].  Python rounds the exact binary value of
    [x] to two decimals, ties to even, and returns the float nearest to
    that decimal; infinities and NaN round to themselves.  For a finite
    [x = m * 2^e] the decimal is [n / 100] with [n] the integer nearest to
    [100 * m * 2^e]; the float division of [n] by [100] is correctly
    rounded, so it is the nearest float as long as [n] is itself a float
    (below [2^53], that is for [|x|] up to about [9e13]).  An [x] with
    [e >= 0] is an integer and rounds to itself. *)
Definition round_half_even (num den : Z) : Z :=
  let q := num / den in
  let r := num mod den in
  match (2 * r ?= den) with
  | Lt => q
  | Gt => q + 1
  | Eq => if Z.even q then q else q + 1
  end.

Definition round2 (x : float) : float :=
  match Prim2SF x with
  | S754_finite s m e =>
      if 0 <=? e then x
      else
        let n := round_half_even (100 * Z.pos m) (2 ^ (- e)) in
        let r := PrimFloat.div (float_of_Z n) (float_of_Z 100) in
        if s then PrimFloat.opp r else r
  | _ => x
  end.

End Py.

(** ** Configuration

    [lib/config.py] reads these values from the process environment; they are
    constant during a run.  The record lists the ones the two programs use,
    with the names they import them under. *)

Record Config : Type := mkConfig {
  STRONG_STYLE_TEST : bool;
  STRONG_ATTEMPTS : Z;
  STRONG_MAX_RESPONSE_TIME : float;
  MAX_RESPONSE_TIME : float;
  MAX_LATENCY_MS : float;
  MIN_RESPONSE_SIZE : Z;
  TEST_URLS : list string;
  TEST_URLS_HTTPS : list string;
  _CLIENT_TEST_HTTPS : string;
  STABILITY_CHECKS : Z;
  STABILITY_CHECK_DELAY : float;
  REQUESTS_PER_URL : Z;
  REQUEST_DELAY : float;
  MIN_SUCCESSFUL_REQUESTS : Z;
  MIN_SUCCESSFUL_URLS : Z;
  STRICT_MODE : bool;
  STRICT_MODE_REQUIRE_ALL : bool;
  REQUIRE_HTTPS : bool;
  HYSTERIA_STARTUP_WAIT : float;
  HYSTERIA_PORT_WAIT : float;
  HYSTERIA_STARTUP_POLL : float
}.

(** ** The state a task runs in *)

(** What a task does to the world, in the order it does it. *)
Inductive Event : Type :=
| EvTakePort (got : option Z)
| EvMkstemp (path : string)
| EvWriteConfig (path : string) (link : string) (port : Z)
| EvPopen (path : string) (started : bool)
| EvPoll (exited : bool)
| EvSleep (seconds : float)
| EvConnect (port : Z) (connected : bool)
| EvRequest (url : string)
| EvDownload (url : string)
| EvTerminate
| EvWait (exited : bool)
| EvKill
| EvUnlink (path : string)
| EvReturnPort (port : Z).

(** Reading a log: is a port handed back to the pool while the client the
    task started may still be running?  The client runs from a successful
    [Popen] until a poll finds it gone, [wait] returns, or [kill] is sent. *)
Fixpoint port_back_while_running (running : bool) (l : list Event) : bool :=
  match l with
  | [] => false
  | EvPopen _ true :: l' => port_back_while_running true l'
  | EvPoll true :: l' => port_back_while_running false l'
  | EvWait true :: l' => port_back_while_running false l'
  | EvKill :: l' => port_back_while_running false l'
  | EvReturnPort _ :: l' => running || port_back_while_running running l'
  | _ :: l' => port_back_while_running running l'
  end.

(** [free_ports] is the port pool, [files] the transient files on disk,
    [log] the actions so far (oldest first); the last four fields count how
    often each external source was consulted, so that the environment can
    answer the next call. *)
Record State : Type := mkState {
  free_ports : list Z;
  files : list string;
  log : list Event;
  polls : nat;
  connects : nat;
  requests : nat;
  clock_reads : nat
}.

Definition set_free_ports (v : list Z) (s : State) : State :=
  mkState v (files s) (log s) (polls s) (connects s) (requests s) (clock_reads s).
Definition set_files (v : list string) (s : State) : State :=
  mkState (free_ports s) v (log s) (polls s) (connects s) (requests s) (clock_reads s).
Definition emit (e : Event) (s : State) : State :=
  mkState (free_ports s) (files s) (log s ++ [e]) (polls s) (connects s) (requests s) (clock_reads s).
Definition count_poll (s : State) : State :=
  mkState (free_ports s) (files s) (log s) (S (polls s)) (connects s) (requests s) (clock_reads s).
Definition count_connect (s : State) : State :=
  mkState (free_ports s) (files s) (log s) (polls s) (S (connects s)) (requests s) (clock_reads s).
Definition count_request (s : State) : State :=
  mkState (free_ports s) (files s) (log s) (polls s) (connects s) (S (requests s)) (clock_reads s).
Definition count_clock (s : State) : State :=
  mkState (free_ports s) (files s) (log s) (polls s) (connects s) (requests s) (S (clock_reads s)).

(** ** Computations with state, exceptions and loops

    A computation either completes with a value, or an exception propagates
    out of it, or it is still inside a loop when the fuel given to that loop
    is used up.  The state survives an exception, as it does in Python. *)

Inductive Result (A : Type) : Type :=
| Done (a : A)
| Raised (e : Py.Exc)
| Hang.
Arguments Done {A} a.
Arguments Raised {A} e.
Arguments Hang {A}.

Definition M (A : Type) : Type := State -> Result A * State.

Definition ret {A : Type} (a : A) : M A := fun s => (Done a, s).

Definition bind {A B : Type} (c : M A) (k : A -> M B) : M B :=
  fun s =>
    match c s with
    | (Done a, s') => k a s'
    | (Raised e, s') => (Raised e, s')
    | (Hang, s') => (Hang, s')
    end.

Definition raise {A : Type} (e : Py.Exc) : M A := fun s => (Raised e, s).
Definition hang {A : Type} : M A := fun s => (Hang, s).
Definition act (f : State -> State) : M unit := fun s => (Done tt, f s).

Declare Scope monad_scope.
Delimit Scope monad_scope with monad.
Notation "x <- c ;; k" := (bind c (fun x => k))
  (at level 61, c at next level, right associativity) : monad_scope.
Notation "c ;; k" := (bind c (fun _ => k))
  (at level 61, right associativity) : monad_scope.
Local Open Scope monad_scope.

(** [try: body except (handled...): handler]. *)
Definition try_except {A : Type} (body : M A) (handled : Py.Exc -> bool)
    (handler : M A) : M A :=
  fun s =>
    match body s with
    | (Raised e, s') => if handled e then handler s' else (Raised e, s')
    | r => r
    end.

(** [try: body finally: cleanup], where [cleanup] has no [return] of its
    own: the outcome of [body] stands unless [cleanup] raises. *)
Definition try_finally {A : Type} (body : M A) (cleanup : M unit) : M A :=
  fun s =>
    match body s with
    | (Hang, s') => (Hang, s')
    | (r, s') =>
        match cleanup s' with
        | (Done _, s'') => (r, s'')
        | (Raised e, s'') => (Raised e, s'')
        | (Hang, s'') => (Hang, s'')
        end
    end.

(** [for x in l: acc = body(x, acc)]. *)
Fixpoint for_each {A B : Type} (l : list A) (body : A -> B -> M B) (acc : B) : M B :=
  match l with
  | [] => ret acc
  | x :: l' => acc' <- body x acc ;; for_each l' body acc'
  end.

Definition any_exception (e : Py.Exc) : bool := true.
Definition only (handled : list Py.Exc) (e : Py.Exc) : bool :=
  existsb (Py.Exc_eqb e) handled.

(** ** The port pool *)

(** Modelled from the spec: [take_port] of [lib/port_pool.py], which is not
    part of the sources.  Section 4.1: it removes and returns one free port,
    or returns [None] at once when the pool is exhausted. *)
Definition take_port : M (option Z) :=
  fun s =>
    match free_ports s with
    | [] => (Done None, emit (EvTakePort None) s)
    | p :: ps => (Done (Some p), emit (EvTakePort (Some p)) (set_free_ports ps s))
    end.

(** Modelled from the spec: the free set after [return_port] of
    [lib/port_pool.py], which is not part of the sources.  Section 4.1: the
    port is added back, and nothing changes when it is already free. *)
Definition pool_return (p : Z) (free : list Z) : list Z :=
  if existsb (Z.eqb p) free then free else free ++ [p].

(** Modelled from the spec: [return_port] of [lib/port_pool.py], which is
    not part of the sources; see [pool_return]. *)
Definition return_port (p : Z) : M unit :=
  act (fun s => emit (EvReturnPort p) (set_free_ports (pool_return p (free_ports s)) s)).

(** ** The collaborators and the environment of one task *)

(** Per-candidate measurements: the [metrics] dict of [check_hysteria_key]. *)
Record Metrics : Type := mkMetrics {
  response_times : list float;
  successful_urls : Z;
  failed_urls : Z;
  total_requests : Z;
  successful_requests : Z
}.

Definition metrics_init : Metrics := mkMetrics [] 0 0 0 0.

Definition add_total_request (m : Metrics) : Metrics :=
  mkMetrics (response_times m) (successful_urls m) (failed_urls m)
    (total_requests m + 1) (successful_requests m).
Definition add_response_time (t : float) (m : Metrics) : Metrics :=
  mkMetrics (response_times m ++ [t]) (successful_urls m) (failed_urls m)
    (total_requests m) (successful_requests m).
Definition add_successful_request (m : Metrics) : Metrics :=
  mkMetrics (response_times m) (successful_urls m) (failed_urls m)
    (total_requests m) (successful_requests m + 1).
Definition set_successful_requests (n : Z) (m : Metrics) : Metrics :=
  mkMetrics (response_times m) (successful_urls m) (failed_urls m)
    (total_requests m) n.
Definition set_url_counts (ok failed : Z) (m : Metrics) : Metrics :=
  mkMetrics (response_times m) ok failed (total_requests m) (successful_requests m).

(** What [subprocess.Popen] does with the client executable. *)
Inductive PopenOutcome : Type :=
| Started
| NotFound      (* FileNotFoundError *)
| Unrunnable.   (* PermissionError *)

(** The outcome of streaming one download: whether [requests.get] raises,
    the status code, the lengths of the chunks received, and whether the
    stream breaks with an exception after them. *)
Record Download : Type := mkDownload {
  get_raises : bool;
  status_code : Z;
  chunks : list nat;
  stream_breaks : bool
}.

Section Engine.

(** [lib/utils.py] and [lib/parsing.py] are not part of the sources.
    [make_request] returns a triple (response, elapsed time, error);
    [check_response_valid response min_size url] and [parse_proxy_url link]
    are used as the functions they are; [response_truthy] is [bool(response)]. *)
Context {Response : Type}.
Variable response_truthy : Response -> bool.
Variable check_response_valid : Response -> Z -> string -> bool.
Variable parse_proxy_url : string -> option (list (string * string)).
Variable cfg : Config.

Record Reply : Type := mkReply {
  response : option Response;
  elapsed_time : float;
  error : option string
}.

(** Everything outside the program's control, for one task. *)
Record Env : Type := mkEnv {
  tmp_path : string;              (* the name [tempfile.mkstemp] picks *)
  write_fails : bool;             (* writing the config raises *)
  popen_outcome : PopenOutcome;
  poll_exited : nat -> bool;      (* the i-th [proc.poll()] is not [None] *)
  connect_ok : nat -> bool;       (* the i-th connection to the listener succeeds *)
  clock : nat -> float;           (* the i-th reading of [time.perf_counter()] *)
  reply : nat -> Reply;           (* what the i-th [make_request] returns *)
  terminate_fails : bool;         (* [proc.terminate()] raises ProcessLookupError *)
  wait_times_out : bool;          (* [proc.wait(timeout=5)] raises TimeoutExpired *)
  kill_fails : bool;              (* [proc.kill()] raises ProcessLookupError *)
  download : Download;
  python_sum : Py.Summation       (* how the interpreter's [sum] adds floats *)
}.

Variable env : Env.

(** *** The primitive actions *)

Definition mkstemp : M string :=
  fun s =>
    let path := tmp_path env in
    (Done path, emit (EvMkstemp path) (set_files (files s ++ [path]) s)).

(** [with os.fdopen(fd, "w") as f: f.write(build_hysteria_config(link, port))] *)
Definition write_config (path link : string) (port : Z) : M unit :=
  if write_fails env then raise Py.IOError
  else act (emit (EvWriteConfig path link port)).

Definition Popen (config_path : string) : M unit :=
  match popen_outcome env with
  | Started => act (emit (EvPopen config_path true))
  | NotFound => act (emit (EvPopen config_path false)) ;; raise Py.FileNotFoundError
  | Unrunnable => act (emit (EvPopen config_path false)) ;; raise Py.PermissionError
  end.

(** [proc.poll() is not None] *)
Definition proc_poll : M bool :=
  fun s =>
    let exited := poll_exited env (polls s) in
    (Done exited, emit (EvPoll exited) (count_poll s)).

Definition proc_terminate : M unit :=
  act (emit EvTerminate) ;;
  if terminate_fails env then raise Py.ProcessLookupError else ret tt.

Definition proc_wait : M unit :=
  if wait_times_out env
  then act (emit (EvWait false)) ;; raise Py.TimeoutExpired
  else act (emit (EvWait true)).

Definition proc_kill : M unit :=
  act (emit EvKill) ;;
  if kill_fails env then raise Py.ProcessLookupError else ret tt.

Definition sleep (seconds : float) : M unit := act (emit (EvSleep seconds)).

Definition perf_counter : M float :=
  fun s => (Done (clock env (clock_reads s)), count_clock s).

(** [socket.create_connection((host, port), ...)] inside its [try]: [true]
    when the connection is made, [false] when it raises. *)
Definition create_connection (host : string) (port : Z) : M bool :=
  fun s =>
    let ok := connect_ok env (connects s) in
    (Done ok, emit (EvConnect port ok) (count_connect s)).

(** [make_request(url, proxies, timeout)]: the proxies and the timeout say
    how the request is made; what comes back is the environment's. *)
Definition make_request (url : string) : M Reply :=
  fun s => (Done (reply env (requests s)), emit (EvRequest url) (count_request s)).

Definition os_unlink (path : string) : M unit :=
  fun s =>
    if existsb (String.eqb path) (files s)
    then (Done tt, emit (EvUnlink path)
                     (set_files (filter (fun f => negb (String.eqb path f)) (files s)) s))
    else (Raised Py.FileNotFoundError, s).

(** [try: os.unlink(path) except FileNotFoundError: pass] *)
Definition unlink_if_present (path : string) : M unit :=
  try_except (os_unlink path) (only [Py.FileNotFoundError]) (ret tt).

(** *** hysteria_checker.py *)

Definition run_hysteria (config_path : string) : M (option unit) :=
  try_except (Popen config_path ;; ret (Some tt))
    (only [Py.FileNotFoundError]) (ret None).

Fixpoint wait_for_port_loop (fuel : nat) (host : string) (port : Z)
    (deadline poll_interval : float) : M bool :=
  match fuel with
  | O => hang
  | S fuel' =>
      now <- perf_counter ;;
      if (now <? deadline)%float then
        connected <- create_connection host port ;;
        if connected then ret true
        else sleep poll_interval ;;
             wait_for_port_loop fuel' host port deadline poll_interval
      else ret false
  end.

(** The two programs carry the same function, with a default
    [poll_interval] of 0.1 and of 0.05. *)
Definition _wait_for_port (fuel : nat) (host : string) (port : Z)
    (max_wait poll_interval : float) : M bool :=
  t0 <- perf_counter ;;
  wait_for_port_loop fuel host port (t0 + max_wait)%float poll_interval.

Definition kill_hysteria (proc : option unit) : M unit :=
  match proc with
  | None => ret tt
  | Some _ =>
      try_except (proc_terminate ;; proc_wait)
        (only [Py.ProcessLookupError; Py.TimeoutExpired])
        (try_except proc_kill (only [Py.ProcessLookupError]) (ret tt))
  end.

(** The startup wait of both programs:
    [while waited < HYSTERIA_STARTUP_WAIT: if proc.poll() is not None: <leave>;
     time.sleep(POLL); waited += POLL].
    [Some r] says the function returned [r] from inside the loop. *)
Fixpoint startup_wait {R : Type} (fuel : nat) (leave : M R) (waited : float)
    : M (option R) :=
  match fuel with
  | O => hang
  | S fuel' =>
      if (waited <? HYSTERIA_STARTUP_WAIT cfg)%float then
        exited <- proc_poll ;;
        if exited then r <- leave ;; ret (Some r)
        else sleep (HYSTERIA_STARTUP_POLL cfg) ;;
             startup_wait fuel' leave (waited + HYSTERIA_STARTUP_POLL cfg)%float
      else ret None
  end.

(** [response and not error and check_response_valid(response, min_size, url)] *)
Definition reply_ok (r : Reply) (min_size : Z) (url : string) : bool :=
  Py.opt_truthy response_truthy (response r)
  && negb (Py.opt_truthy Py.str_truthy (error r))
  && match response r with
     | Some resp => check_response_valid resp min_size url
     | None => false
     end.

(** [limit > 0 and elapsed_time > limit] *)
Definition too_slow (limit : float) (r : Reply) : bool :=
  (0 <? limit)%float && (limit <? elapsed_time r)%float.

(** One turn of [for attempt in range(attempts_total)]. *)
Definition strong_attempt (max_ok_time : float) (attempt : nat)
    (acc : Metrics * Z) : M (Metrics * Z) :=
  let '(metrics, success_count) := acc in
  (if (0 <? attempt)%nat then sleep 0.5%float else ret tt) ;;
  r <- make_request (_CLIENT_TEST_HTTPS cfg) ;;
  let metrics := add_total_request metrics in
  if reply_ok r 0 (_CLIENT_TEST_HTTPS cfg) then
    if too_slow max_ok_time r then ret (metrics, success_count)
    else ret (add_response_time (elapsed_time r) metrics, success_count + 1)
  else ret (metrics, success_count).

Definition max_ok_time : float :=
  if (0 <? STRONG_MAX_RESPONSE_TIME cfg)%float
  then STRONG_MAX_RESPONSE_TIME cfg else MAX_RESPONSE_TIME cfg.

Definition attempts_total : Z := Z.max 2 (STRONG_ATTEMPTS cfg).

(** The [if STRONG_STYLE_TEST:] block.  The connect and read timeouts it
    derives only say how the request is made. *)
Definition strong_style_test (link : string) (metrics : Metrics)
    : M (string * bool * Metrics) :=
  let min_success := 2 in
  acc <- for_each (Py.range attempts_total) (strong_attempt max_ok_time) (metrics, 0) ;;
  let '(metrics, success_count) := acc in
  if min_success <=? success_count then
    ret (link, true, set_url_counts 1 0 (set_successful_requests success_count metrics))
  else ret (link, false, metrics).

Definition all_urls : list (string * string) :=
  let l := ((if Py.list_truthy (TEST_URLS cfg)
             then map (fun url => (url, "http")) (TEST_URLS cfg) else [])
            ++ (if Py.list_truthy (TEST_URLS_HTTPS cfg)
                then map (fun url => (url, "https")) (TEST_URLS_HTTPS cfg) else []))%list in
  if Py.list_truthy l then l else [(_CLIENT_TEST_HTTPS cfg, "https")].

(** One turn of [for request_num in range(REQUESTS_PER_URL)]. *)
Definition stability_request (url : string) (request_num : nat)
    (acc : Metrics * Z) : M (Metrics * Z) :=
  let '(metrics, request_ok) := acc in
  (if (0 <? request_num)%nat then sleep (REQUEST_DELAY cfg) else ret tt) ;;
  r <- make_request url ;;
  let metrics := add_total_request metrics in
  if reply_ok r (MIN_RESPONSE_SIZE cfg) url then
    if too_slow (MAX_RESPONSE_TIME cfg) r then ret (metrics, request_ok)
    else ret (add_successful_request (add_response_time (elapsed_time r) metrics),
              request_ok + 1)
  else ret (metrics, request_ok).

(** One turn of [for url, _ in all_urls]. *)
Definition stability_url (u : string * string) (acc : Metrics * Z)
    : M (Metrics * Z) :=
  let '(metrics, successful_urls_count) := acc in
  acc' <- for_each (Py.range (REQUESTS_PER_URL cfg)) (stability_request (fst u))
            (metrics, 0) ;;
  let '(metrics, request_ok) := acc' in
  if MIN_SUCCESSFUL_REQUESTS cfg <=? request_ok
  then ret (metrics, successful_urls_count + 1)
  else ret (metrics, successful_urls_count).

(** [successful_urls_count == len(all_urls) if (STRICT_MODE and
    STRICT_MODE_REQUIRE_ALL) else successful_urls_count >= MIN_SUCCESSFUL_URLS] *)
Definition enough_urls (successful_urls_count : Z) : bool :=
  if STRICT_MODE cfg && STRICT_MODE_REQUIRE_ALL cfg
  then successful_urls_count =? Z.of_nat (List.length all_urls)
  else MIN_SUCCESSFUL_URLS cfg <=? successful_urls_count.

(** [any(t == "https" for _, t in all_urls)] *)
Definition has_https : bool :=
  existsb (fun u => (snd u =? "https")%string) all_urls.

(** One turn of [for stability_check in range(STABILITY_CHECKS)].  The third
    component is [successful_urls_count], unbound until the first round. *)
Definition stability_round (stability_check : nat)
    (acc : Metrics * list bool * option Z) : M (Metrics * list bool * option Z) :=
  let '(metrics, stability_results, _) := acc in
  (if (0 <? stability_check)%nat then sleep (STABILITY_CHECK_DELAY cfg) else ret tt) ;;
  acc' <- for_each all_urls stability_url (metrics, 0) ;;
  let '(metrics, successful_urls_count) := acc' in
  let passed := enough_urls successful_urls_count in
  let passed := if REQUIRE_HTTPS cfg && negb has_https then false else passed in
  ret (metrics, (stability_results ++ [passed])%list, Some successful_urls_count).

Definition stability_rounds (metrics : Metrics)
    : M (Metrics * list bool * option Z) :=
  for_each (Py.range (STABILITY_CHECKS cfg)) stability_round (metrics, [], None).

(** The rest of the [try] body, when [STRONG_STYLE_TEST] is off. *)
Definition stability_test (link : string) (metrics : Metrics)
    : M (string * bool * Metrics) :=
  acc <- stability_rounds metrics ;;
  let '(metrics, stability_results, last) := acc in
  if (1 <? STABILITY_CHECKS cfg) && negb (forallb (fun b : bool => b) stability_results)
  then ret (link, false, metrics)
  else
    match last with
    | None => raise Py.UnboundLocalError
    | Some successful_urls_count =>
        let metrics :=
          set_url_counts successful_urls_count
            (Z.of_nat (List.length all_urls) - successful_urls_count) metrics in
        let is_available := enough_urls successful_urls_count in
        let is_available :=
          if REQUIRE_HTTPS cfg && negb (Py.list_truthy all_urls)
          then false else is_available in
        ret (link, is_available, metrics)
    end.

(** [not parsed or parsed.get("protocol") not in ("hysteria", "hysteria2")] *)
Definition not_hysteria (parsed : option (list (string * string))) : bool :=
  negb (Py.opt_truthy Py.list_truthy parsed)
  || match parsed with
     | None => true
     | Some d =>
         match Py.dict_get d "protocol" with
         | Some p => negb ((p =? "hysteria")%string || (p =? "hysteria2")%string)
         | None => true
         end
     end.

(** The body of the [try] of [check_hysteria_key]. *)
Definition check_try (fuel : nat) (link : string) (port : Z) (metrics : Metrics)
    : M (string * bool * Metrics) :=
  early <- startup_wait fuel (return_port port ;; ret (link, false, metrics)) 0%float ;;
  match early with
  | Some r => ret r
  | None =>
      ready <- _wait_for_port fuel "127.0.0.1" port (HYSTERIA_PORT_WAIT cfg) 0.1%float ;;
      if negb ready then return_port port ;; ret (link, false, metrics)
      else if STRONG_STYLE_TEST cfg then strong_style_test link metrics
      else stability_test link metrics
  end.

(** The [finally] of both programs. *)
Definition teardown (proc : option unit) (config_path : string) (port : Z) : M unit :=
  kill_hysteria proc ;;
  unlink_if_present config_path ;;
  return_port port.

Definition check_hysteria_key (fuel : nat) (link : string)
    : M (string * bool * Metrics) :=
  let metrics := metrics_init in
  let parsed := parse_proxy_url link in
  if not_hysteria parsed then ret (link, false, metrics)
  else
    port <- take_port ;;
    match port with
    | None => ret (link, false, metrics)
    | Some port =>
        config_path <- mkstemp ;;
        written <- try_except (write_config config_path link port ;; ret true)
                     any_exception (ret false) ;;
        if negb written then return_port port ;; ret (link, false, metrics)
        else
          proc <- run_hysteria config_path ;;
          match proc with
          | None =>
              return_port port ;;
              unlink_if_present config_path ;;
              ret (link, false, metrics)
          | Some _ =>
              try_finally (check_try fuel link port metrics)
                (teardown proc config_path port)
          end
    end.

(** The result loop of [main]: the futures in the order they complete, each
    with the link it was submitted for and either the exception it raised
    or the value [check_hysteria_key] returned.  [all_metrics] maps a link
    to its metrics, or to [None] for the empty dict of the [except] branch;
    [completed] is the count of the progress bar, and [description] the
    totals in its description, [None] as long as it is the one the task was
    added with. *)
Record Collected : Type := mkCollected {
  available : list (string * float);
  available_links : list string;
  all_metrics : list (string * option Metrics);
  completed : Z;
  description : option (Z * Z)
}.

(** [d[k] = v] on a dict kept as an association list. *)
Fixpoint dict_set {V : Type} (k : string) (v : V) (d : list (string * V))
    : list (string * V) :=
  match d with
  | [] => [(k, v)]
  | (k', v') :: d' =>
      if (k' =? k)%string then (k, v) :: d' else (k', v') :: dict_set k v d'
  end.

Definition set_add (x : string) (l : list string) : list string :=
  if existsb (String.eqb x) l then l else (l ++ [x])%list.

(** [sum(response_times) / len(response_times)], in seconds. *)
Definition average (times : list float) : float :=
  (Py.sum (python_sum env) times
   / Py.float_of_Z (Z.of_nat (List.length times)))%float.

(** [(sum(response_times) / len(response_times)) * 1000], or [0.0] when
    there is no sample. *)
Definition latency_ms (metrics : Metrics) : float :=
  if Py.list_truthy (response_times metrics)
  then (average (response_times metrics) * Py.float_of_Z 1000)%float
  else 0%float.

(** [link_to_full.get(link, link)] *)
Definition full_line (link_to_full : list (string * string)) (link : string) : string :=
  match Py.dict_get link_to_full link with Some full => full | None => link end.

(** [progress.advance(task)] *)
Definition advance (c : Collected) : Collected :=
  mkCollected (available c) (available_links c) (all_metrics c) (completed c + 1)
    (description c).

(** [progress.update(task, description=f"... [OK: {len(available)}, FAIL:
    {len(all_metrics) - len(available)}]")] *)
Definition update_description (c : Collected) : Collected :=
  mkCollected (available c) (available_links c) (all_metrics c) (completed c)
    (Some (Z.of_nat (List.length (available c)),
           Z.of_nat (List.length (all_metrics c))
           - Z.of_nat (List.length (available c)))).

(** One turn of [for future in as_completed(futures)].  The description is
    refreshed in the [try] branch only: a future that raised advances the
    bar and leaves the totals shown as they were. *)
Definition collect_one (link_to_full : list (string * string)) (c : Collected)
    (fut : string * (Py.Exc + string * bool * Metrics)) : Collected :=
  match snd fut with
  | inr (link, ok, metrics) =>
      let all_metrics' := dict_set link (Some metrics) (all_metrics c) in
      let c' :=
        if ok then
          let full := full_line link_to_full link in
          if (latency_ms metrics <=? MAX_LATENCY_MS cfg)%float
          then mkCollected (available c ++ [(full, latency_ms metrics)])
                 (set_add link (available_links c)) all_metrics'
                 (completed c) (description c)
          else mkCollected (available c) (available_links c) all_metrics'
                 (completed c) (description c)
        else mkCollected (available c) (available_links c) all_metrics'
               (completed c) (description c) in
      update_description (advance c')
  | inl _ =>
      advance (mkCollected (available c) (available_links c)
                 (dict_set (fst fut) None (all_metrics c))
                 (completed c) (description c))
  end.

Definition main_collect (link_to_full : list (string * string))
    (futures : list (string * (Py.Exc + string * bool * Metrics))) : Collected :=
  fold_left (collect_one link_to_full) futures (mkCollected [] [] [] 0 None).

(** [sorted(l, key=...)]: a stable sort that compares keys with [<]. *)
Fixpoint insert_by {A : Type} (key : A -> float) (x : A) (l : list A) : list A :=
  match l with
  | [] => [x]
  | y :: l' =>
      if (key x <? key y)%float then x :: y :: l' else y :: insert_by key x l'
  end.

Definition sorted_by {A : Type} (key : A -> float) (l : list A) : list A :=
  fold_left (fun acc x => insert_by key x acc) l [].

Definition available_sorted (c : Collected) : list (string * float) :=
  sorted_by snd (available c).

(** The lines of the result file and of the top-100 file; both files are
    written only when [available_sorted] is not empty. *)
Definition lines_out (c : Collected) : list string := map fst (available_sorted c).
Definition top100_lines (c : Collected) : list string := firstn 100 (lines_out c).

(** *** speedtest_hysteria.py *)

(** [for chunk in r.iter_content(chunk_size=8192)], a chunk given by its
    length. *)
Fixpoint read_chunks (sizes : list nat) (start_time : float) (timeout_sec : Z)
    (downloaded : Z) : M Z :=
  match sizes with
  | [] =>
      if stream_breaks (download env) then raise Py.RequestException
      else ret downloaded
  | size :: rest =>
      let downloaded :=
        if (0 <? size)%nat then downloaded + Z.of_nat size else downloaded in
      now <- perf_counter ;;
      if (Py.float_of_Z timeout_sec <? now - start_time)%float then ret downloaded
      else read_chunks rest start_time timeout_sec downloaded
  end.

Definition requests_get (url : string) : M Z :=
  act (emit (EvDownload url)) ;;
  if get_raises (download env) then raise Py.RequestException
  else ret (status_code (download env)).

Definition _test_download_speed (url : string) (timeout_sec : Z) : M (option float) :=
  try_except
    (start_time <- perf_counter ;;
     status <- requests_get url ;;
     if negb (status =? 200) then ret None
     else
       downloaded <- read_chunks (chunks (download env)) start_time timeout_sec 0 ;;
       now <- perf_counter ;;
       let elapsed := (now - start_time)%float in
       if (elapsed <? 0.3)%float then ret None
       else ret (Some (Py.round2 (Py.float_of_Z (downloaded * 8)
                                  / (elapsed * Py.float_of_Z 1000000))%float)))
    (only [Py.RequestException]) (ret None).

(** [min(a, b)] on floats. *)
Definition float_min (a b : float) : float := if (b <? a)%float then b else a.

(** [for _ in range(requests_count)] with its [break] at the deadline. *)
Fixpoint latency_probes (n : nat) (test_url : string) (deadline : float)
    (response_times : list float) : M (list float) :=
  match n with
  | O => ret response_times
  | S n' =>
      now <- perf_counter ;;
      if (deadline <=? now)%float then ret response_times
      else
        r <- make_request test_url ;;
        if reply_ok r 0 test_url
        then latency_probes n' test_url deadline
               (response_times ++ [elapsed_time r * Py.float_of_Z 1000]%float)
        else latency_probes n' test_url deadline response_times
  end.

(** The end of the [try] body: from the latency samples to the score. *)
Definition speed_score (proxy_line : string) (response_times : list float)
    (metric mode : string) (download_timeout : Z)
    (download_url_small download_url_medium : string)
    : M (option (string * float)) :=
  if negb (Py.list_truthy response_times) then ret None
  else
    let avg_latency_ms :=
      (Py.sum (python_sum env) response_times
       / Py.float_of_Z (Z.of_nat (List.length response_times)))%float in
    if (mode =? "quick")%string && Py.str_truthy download_url_small then
      speed_mbps <- _test_download_speed download_url_small
                      (Z.min 10 download_timeout) ;;
      match speed_mbps with
      | Some v => ret (Some (proxy_line, v))
      | None => ret None
      end
    else if (mode =? "full")%string && Py.str_truthy download_url_medium then
      speed_mbps <- _test_download_speed download_url_medium download_timeout ;;
      match speed_mbps with
      | Some v => ret (Some (proxy_line, v))
      | None => ret None
      end
    else if (mode =? "latency")%string
            || negb (Py.str_truthy download_url_small
                     || Py.str_truthy download_url_medium) then
      if (metric =? "throughput")%string
      then ret (Some (proxy_line,
                      if (0 <? avg_latency_ms)%float
                      then (100000 / avg_latency_ms)%float else 0%float))
      else ret (Some (proxy_line, avg_latency_ms))
    else ret (Some (proxy_line, avg_latency_ms)).

(** The body of the [try] of [speed_test_hysteria_key].  The timeouts it
    derives for a request only say how the request is made. *)
Definition speed_try (fuel : nat) (proxy_line : string) (port : Z)
    (timeout : float) (metric : string) (requests_count : Z) (test_url mode : string)
    (download_timeout : Z) (download_url_small download_url_medium : string)
    : M (option (string * float)) :=
  early <- startup_wait fuel (return_port port ;; ret None) 0%float ;;
  match early with
  | Some r => ret r
  | None =>
      ready <- _wait_for_port fuel "127.0.0.1" port
                 (float_min (HYSTERIA_PORT_WAIT cfg) (timeout + Py.float_of_Z 5)%float)
                 0.05%float ;;
      if negb ready then ret None
      else
        now <- perf_counter ;;
        let deadline := (now + timeout)%float in
        response_times <- latency_probes (Z.to_nat requests_count) test_url deadline [] ;;
        speed_score proxy_line response_times metric mode download_timeout
          download_url_small download_url_medium
  end.

(** In the [except] branch of the config write, [os.close(fd)] leaves the
    modelled state as it is. *)
Definition speed_test_hysteria_key (fuel : nat) (proxy_line : string)
    (timeout : float) (metric : string) (requests_count : Z) (test_url mode : string)
    (download_timeout : Z) (download_url_small download_url_medium : string)
    : M (option (string * float)) :=
  let parsed := parse_proxy_url proxy_line in
  if not_hysteria parsed then ret None
  else
    port <- take_port ;;
    match port with
    | None => ret None
    | Some port =>
        config_path <- mkstemp ;;
        written <- try_except (write_config config_path proxy_line port ;; ret true)
                     any_exception (ret false) ;;
        if negb written then return_port port ;; ret None
        else
          proc <- run_hysteria config_path ;;
          match proc with
          | None =>
              return_port port ;;
              unlink_if_present config_path ;;
              ret None
          | Some _ =>
              try_finally
                (speed_try fuel proxy_line port timeout metric requests_count
                   test_url mode download_timeout download_url_small
                   download_url_medium)
                (teardown proc config_path port)
          end
    end.


(** The result loop of the speed test's [main]: a future adds its pair to
    [results] unless it raised or returned [None]. *)
Definition speedtest_collect (futures : list (Py.Exc + option (string * float)))
    : list (string * float) :=
  fold_left
    (fun results fut =>
       match fut with
       | inr (Some scored) => (results ++ [scored])%list
       | _ => results
       end)
    futures [].

(** [results.sort(key=lambda x: x[1], reverse=sort_by_speed)]: a reversed
    sort keeps equal keys in their original order. *)
Definition sort_results (mode metric : string) (results : list (string * float))
    : list (string * float) :=
  let sort_by_speed :=
    ((mode =? "quick")%string || (mode =? "full")%string)
    || (metric =? "throughput")%string in
  if sort_by_speed then rev (sorted_by snd (rev results)) else sorted_by snd results.

(** ** The vocabulary of the properties *)

(** A link that is not a Hysteria link, in the words of the claim: the
    parser gives nothing (or an empty record), or the protocol it gives is
    neither of the two names. *)
Definition rejected_link (link : string) : Prop :=
  Py.opt_truthy Py.list_truthy (parse_proxy_url link) = false
  \/ exists d, parse_proxy_url link = Some d
               /\ Py.dict_get d "protocol" <> Some "hysteria"
               /\ Py.dict_get d "protocol" <> Some "hysteria2".

(** A Hysteria link, in the words of the claims: the parser gives a record
    whose protocol is one of the two names. *)
Definition hysteria_link (link : string) : Prop :=
  exists d p, parse_proxy_url link = Some d
              /\ Py.dict_get d "protocol" = Some p
              /\ (p = "hysteria" \/ p = "hysteria2").

(** What [kill_hysteria] does to a process, by how the process answers. *)
Definition kill_log : list Event :=
  if terminate_fails env then [EvTerminate; EvKill]
  else if wait_times_out env then [EvTerminate; EvWait false; EvKill]
  else [EvTerminate; EvWait true].

Definition without (path : string) (fs : list string) : list string :=
  filter (fun f => negb (String.eqb path f)) fs.

(** The fields of the state that no action of [teardown] touches. *)
Definition same_counters (s s' : State) : Prop :=
  polls s' = polls s /\ connects s' = connects s
  /\ requests s' = requests s /\ clock_reads s' = clock_reads s.

(** The state once the client has been started on [port]: the port is out
    of the pool, the config file is on disk and written. *)
Definition launched (link : string) (port : Z) (rest : list Z) (s : State) : State :=
  emit (EvPopen (tmp_path env) true)
    (emit (EvWriteConfig (tmp_path env) link port)
       (emit (EvMkstemp (tmp_path env))
          (set_files (files s ++ [tmp_path env])
             (emit (EvTakePort (Some port)) (set_free_ports rest s))))).

Definition launch_log (link : string) (port : Z) : list Event :=
  [EvTakePort (Some port); EvMkstemp (tmp_path env);
   EvWriteConfig (tmp_path env) link port; EvPopen (tmp_path env) true].

(** [waited] after [i] more turns of the loop. *)
Fixpoint waited_from (waited : float) (i : nat) : float :=
  match i with
  | O => waited
  | S i' => waited_from (waited + HYSTERIA_STARTUP_POLL cfg)%float i'
  end.

(** The state after [k] turns that found the client alive. *)
Fixpoint after_polls (k : nat) (s : State) : State :=
  match k with
  | O => s
  | S k' =>
      after_polls k'
        (emit (EvSleep (HYSTERIA_STARTUP_POLL cfg)) (emit (EvPoll false) (count_poll s)))
  end.

Fixpoint poll_log (k : nat) : list Event :=
  match k with
  | O => []
  | S k' => EvPoll false :: EvSleep (HYSTERIA_STARTUP_POLL cfg) :: poll_log k'
  end.

(** The task got as far as the probes: the link was accepted, a port was
    free, the config was written, the client started and stayed alive
    through the startup wait, and its listener accepted a connection; [s']
    is the state in which the first probe is made. *)
Definition client_ready (fuel : nat) (link : string) (port : Z) (s s' : State) : Prop :=
  exists rest s1,
    hysteria_link link
    /\ free_ports s = port :: rest
    /\ write_fails env = false
    /\ popen_outcome env = Started
    /\ startup_wait fuel (return_port port ;; ret (link, false, metrics_init))
         0%float (launched link port rest s) = (Done None, s1)
    /\ _wait_for_port fuel "127.0.0.1" port (HYSTERIA_PORT_WAIT cfg) 0.1%float s1
       = (Done true, s').

Definition probe (link : string) : M (string * bool * Metrics) :=
  if STRONG_STYLE_TEST cfg then strong_style_test link metrics_init
  else stability_test link metrics_init.

(** The replies to the [n] requests made from the request number [start]. *)
Definition replies_from (start n : nat) : list Reply :=
  map (reply env) (seq start n).

(** An attempt of the strict protocol is a success under the time limit
    [limit]: a response came back, no error is reported, the response is
    valid, and, when [limit] is positive, the elapsed time is not above it. *)
Definition counted (limit : float) (r : Reply) : bool :=
  match response r with
  | Some resp =>
      response_truthy resp && check_response_valid resp 0 (_CLIENT_TEST_HTTPS cfg)
  | None => false
  end
  && negb (Py.opt_truthy Py.str_truthy (error r))
  && negb ((0 <? limit)%float && (limit <? elapsed_time r)%float).

(** The successes among the [n] attempts of a run of the strict protocol
    whose first request is made in state [s]. *)
Definition strict_good (n : Z) (limit : float) (s : State) : list Reply :=
  filter (counted limit) (replies_from (requests s) (Z.to_nat n)).

(** The average of the samples, in milliseconds: their sum over their
    number, times 1000; [0.0] when there is no sample. *)
Definition mean_ms (times : list float) : float :=
  match times with
  | [] => 0%float
  | _ :: _ =>
      (Py.sum (python_sum env) times / Py.float_of_Z (Z.of_nat (List.length times))
       * Py.float_of_Z 1000)%float
  end.

(** A completed future is kept: the check passed and the average of its
    samples, in milliseconds, is within [MAX_LATENCY_MS]. *)
Definition kept (fut : string * (Py.Exc + string * bool * Metrics)) : bool :=
  match snd fut with
  | inr (_, ok, metrics) =>
      ok && (mean_ms (response_times metrics) <=? MAX_LATENCY_MS cfg)%float
  | inl _ => false
  end.

(** The pair a kept future adds to [available]. *)
Definition kept_entry (link_to_full : list (string * string))
    (fut : string * (Py.Exc + string * bool * Metrics)) : string * float :=
  match snd fut with
  | inr (link, _, metrics) =>
      (full_line link_to_full link, mean_ms (response_times metrics))
  | inl _ => (fst fut, 0%float)
  end.

(** The future returned a value, that is did not raise. *)
Definition returned (fut : string * (Py.Exc + string * bool * Metrics)) : bool :=
  match snd fut with inr _ => true | inl _ => false end.

(** The download of [url] started in state [s] was answered with status 200
    and its stream was read without an exception, [downloaded] bytes in
    all; [s1] is the state when the reading stops. *)
Definition stream_read (url : string) (timeout_sec : Z) (s : State)
    (downloaded : Z) (s1 : State) : Prop :=
  get_raises (download env) = false
  /\ status_code (download env) = 200
  /\ read_chunks (chunks (download env)) (clock env (clock_reads s)) timeout_sec 0
       (emit (EvDownload url) (count_clock s))
     = (Done downloaded, s1).

(** [elapsed]: the clock when the reading stops, less the clock at the start. *)
Definition download_elapsed (s s1 : State) : float :=
  (clock env (clock_reads s1) - clock env (clock_reads s))%float.

(** Megabits per second: [(downloaded * 8) / (elapsed * 1_000_000)]. *)
Definition mbps (downloaded : Z) (elapsed : float) : float :=
  (Py.float_of_Z (downloaded * 8) / (elapsed * Py.float_of_Z 1000000))%float.

Definition download_result (downloaded : Z) (elapsed : float) : option float :=
  if (elapsed <? 0.3)%float then None else Some (Py.round2 (mbps downloaded elapsed)).

(** The quick and the full mode, each with the URL and the time limit it
    downloads with. *)
Definition download_mode (mode : string) (download_timeout : Z)
    (download_url_small download_url_medium url : string) (timeout_sec : Z) : Prop :=
  (mode = "quick" /\ url = download_url_small /\ url <> ""
   /\ timeout_sec = Z.min 10 download_timeout)
  \/ (mode = "full" /\ url = download_url_medium /\ url <> ""
      /\ timeout_sec = download_timeout).

(** The speed test got as far as the score: as [client_ready], with the
    speed test's own waits, and then the latency probes, which gave the
    samples [response_times] and left the state [s']. *)
Definition speed_probed (fuel : nat) (proxy_line : string) (port : Z)
    (timeout : float) (requests_count : Z) (test_url : string)
    (s : State) (response_times : list float) (s' : State) : Prop :=
  exists rest s1 s2,
    hysteria_link proxy_line
    /\ free_ports s = port :: rest
    /\ write_fails env = false
    /\ popen_outcome env = Started
    /\ startup_wait fuel (return_port port ;; ret (@None (string * float)))
         0%float (launched proxy_line port rest s) = (Done None, s1)
    /\ _wait_for_port fuel "127.0.0.1" port
         (float_min (HYSTERIA_PORT_WAIT cfg) (timeout + Py.float_of_Z 5)%float)
         0.05%float s1 = (Done true, s2)
    /\ latency_probes (Z.to_nat requests_count) test_url
         (clock env (clock_reads s2) + timeout)%float [] (count_clock s2)
       = (Done response_times, s').

(** Between [s] and [s'] no file was created or removed, and the pool
    changed at most by getting [port] back. *)
Definition pool_step (port : Z) (s s' : State) : Prop :=
  files s' = files s
  /\ (free_ports s' = free_ports s
      \/ free_ports s' = pool_return port (free_ports s)).

(** A computation that, however it ends, makes a [pool_step]. *)
Definition keeps {A : Type} (port : Z) (c : M A) : Prop :=
  forall s, pool_step port s (snd (c s)).

(** The log of [n] refused connections to [port], each followed by a sleep
    of [poll_interval]. *)
Fixpoint refused_log (port : Z) (poll_interval : float) (n : nat) : list Event :=
  match n with
  | O => []
  | S n' => EvConnect port false :: EvSleep poll_interval
            :: refused_log port poll_interval n'
  end.

(** The state after [n] turns of the loop of [_wait_for_port] in which the
    connection was refused: the clock was read, the connection tried, and
    the task slept. *)
Fixpoint after_refused (port : Z) (poll_interval : float) (n : nat) (s : State)
    : State :=
  match n with
  | O => s
  | S n' =>
      after_refused port poll_interval n'
        (emit (EvSleep poll_interval)
           (emit (EvConnect port false) (count_connect (count_clock s))))
  end.

(** ** Properties of one task *)

(** *** Comparing floats *)

Lemma SFcompare_antisym (x y : spec_float) (c : comparison) :
  SFcompare x y = Some c -> SFcompare y x = Some (CompOpp c).
Proof.
  destruct x as [sx | sx | | sx mx ex], y as [sy | sy | | sy my ey];
    simpl; try discriminate;
    try (destruct sx); try (destruct sy);
    intros H; injection H as <-; try reflexivity;
    rewrite (Z.compare_antisym ex ey);
    destruct (ex ?= ey)%Z; simpl; try reflexivity;
    rewrite (Pos.compare_cont_antisym mx my Eq); simpl;
    now rewrite ?CompOpp_involutive.
Qed.

Lemma is_nan_spec (x : float) :
  PrimFloat.is_nan x = false -> Prim2SF x <> S754_nan.
Proof.
  unfold PrimFloat.is_nan. rewrite eqb_spec. intros H E. rewrite E in H.
  discriminate H.
Qed.

Lemma SFcompare_total (x y : spec_float) :
  x <> S754_nan -> y <> S754_nan -> exists c, SFcompare x y = Some c.
Proof.
  destruct x, y; simpl; try congruence; eauto.
Qed.

(** Between two numbers, not greater is at most. *)
Lemma float_not_gt_le (x y : float) :
  PrimFloat.is_nan x = false -> PrimFloat.is_nan y = false ->
  (y <? x)%float = false -> (x <=? y)%float = true.
Proof.
  intros Hx Hy. rewrite ltb_spec, leb_spec. unfold SFltb, SFleb.
  destruct (SFcompare_total (Prim2SF x) (Prim2SF y) (is_nan_spec x Hx) (is_nan_spec y Hy))
    as (c & Hc).
  rewrite Hc, (SFcompare_antisym _ _ _ Hc). destruct c; simpl; congruence.
Qed.

Lemma SFcompare_refl (x : spec_float) :
  x <> S754_nan -> SFcompare x x = Some Eq.
Proof.
  destruct x as [sx | sx | | sx mx ex]; simpl; try congruence; intros _;
    destruct sx; try reflexivity;
    now rewrite Z.compare_refl, Pos.compare_cont_refl.
Qed.

Lemma float_lt_not_nan (x y : float) :
  (x <? y)%float = true -> PrimFloat.is_nan y = false.
Proof.
  rewrite ltb_spec. unfold SFltb, PrimFloat.is_nan. rewrite eqb_spec.
  intros H. unfold SFeqb. rewrite SFcompare_refl; [reflexivity |].
  intros E. rewrite E in H. now destruct (Prim2SF x).
Qed.

(** *** Links and the pool *)

Lemma bind_done {A B : Type} (c : M A) (k : A -> M B) (s s' : State) (a : A) :
  c s = (Done a, s') -> bind c k s = k a s'.
Proof. intros H. unfold bind. rewrite H. reflexivity. Qed.

Lemma rejected_link_not_hysteria (link : string) :
  rejected_link link -> not_hysteria (parse_proxy_url link) = true.
Proof.
  unfold rejected_link, not_hysteria.
  intros [H | (d & Hd & H1 & H2)].
  - rewrite H. reflexivity.
  - rewrite Hd. apply orb_true_iff. right.
    destruct (Py.dict_get d "protocol") as [p |]; [| reflexivity].
    apply negb_true_iff, orb_false_iff. split.
    + apply String.eqb_neq. intros ->. now apply H1.
    + apply String.eqb_neq. intros ->. now apply H2.
Qed.

Lemma hysteria_link_accepted (link : string) :
  hysteria_link link -> not_hysteria (parse_proxy_url link) = false.
Proof.
  intros (d & p & Hd & Hp & Hname). unfold not_hysteria. rewrite Hd, Hp.
  destruct d as [| kv d']; [discriminate Hp |].
  destruct Hname as [-> | ->]; reflexivity.
Qed.

(** C10. A link that does not parse, or whose protocol is neither
    "hysteria" nor "hysteria2", is answered with [(link, False, metrics)] and
    untouched metrics, and the whole state (port pool, files, log of
    actions) is exactly what it was: no port taken, no file written, no
    process started. *)
Theorem check_rejected_link_leaves_state (fuel : nat) (link : string) (s : State) :
  rejected_link link ->
  check_hysteria_key fuel link s = (Done (link, false, metrics_init), s).
Proof.
  intros H. unfold check_hysteria_key.
  rewrite (rejected_link_not_hysteria link H). reflexivity.
Qed.

(** C6. When the pool has no free port, a Hysteria link is answered with
    [(link, False, metrics)] as an ordinary return value; the only action of
    the task is the one failed [take_port]: no second attempt, no config
    file, no process. *)
Theorem check_pool_exhausted (fuel : nat) (link : string) (s : State) :
  hysteria_link link ->
  free_ports s = [] ->
  check_hysteria_key fuel link s
  = (Done (link, false, metrics_init), emit (EvTakePort None) s).
Proof.
  intros Hlink Hfree. unfold check_hysteria_key.
  rewrite (hysteria_link_accepted link Hlink).
  unfold bind, take_port. rewrite Hfree. reflexivity.
Qed.

(** *** Teardown *)

Lemma kill_hysteria_runs (s : State) :
  exists s', kill_hysteria (Some tt) s = (Done tt, s')
             /\ log s' = (log s ++ kill_log)%list
             /\ files s' = files s /\ free_ports s' = free_ports s
             /\ same_counters s s'.
Proof.
  unfold kill_hysteria, kill_log, try_except, bind, proc_terminate, proc_wait,
    proc_kill, act, raise, ret, only, same_counters.
  destruct (terminate_fails env), (wait_times_out env), (kill_fails env);
    simpl; eexists; (split; [reflexivity |]); simpl;
    rewrite <- ?app_assoc; simpl; repeat split; reflexivity.
Qed.

Lemma unlink_if_present_runs (path : string) (s : State) :
  exists s', unlink_if_present path s = (Done tt, s')
             /\ log s' = (log s ++ (if existsb (String.eqb path) (files s)
                                    then [EvUnlink path] else []))%list
             /\ files s' = without path (files s)
             /\ free_ports s' = free_ports s
             /\ same_counters s s'.
Proof.
  unfold unlink_if_present, try_except, os_unlink, only, ret, same_counters.
  destruct (existsb (String.eqb path) (files s)) eqn:E; simpl.
  - eexists. split; [reflexivity |]. simpl. repeat split; reflexivity.
  - exists s. rewrite app_nil_r. repeat split.
    unfold without. symmetry. apply forallb_filter_id.
    apply forallb_forall. intros f Hf.
    destruct (String.eqb path f) eqn:Ef; [| reflexivity].
    assert (existsb (String.eqb path) (files s) = true) as C
      by (apply existsb_exists; exists f; auto).
    rewrite E in C. discriminate C.
Qed.

(** The [finally] block always completes: the client is stopped, then the
    config file is gone, then the port is back in the pool. *)
Lemma teardown_runs (path : string) (port : Z) (s : State) :
  exists s', teardown (Some tt) path port s = (Done tt, s')
             /\ log s' = (log s ++ kill_log
                          ++ (if existsb (String.eqb path) (files s)
                              then [EvUnlink path] else [])
                          ++ [EvReturnPort port])%list
             /\ files s' = without path (files s)
             /\ free_ports s' = pool_return port (free_ports s)
             /\ same_counters s s'.
Proof.
  unfold teardown.
  destruct (kill_hysteria_runs s) as (s1 & E1 & L1 & F1 & P1 & C1).
  destruct (unlink_if_present_runs path s1) as (s2 & E2 & L2 & F2 & P2 & C2).
  eexists. split.
  - rewrite (bind_done _ _ _ _ _ E1), (bind_done _ _ _ _ _ E2). reflexivity.
  - unfold return_port, act, same_counters in *. simpl.
    rewrite L2, L1, F2, F1, P2, P1, <- !app_assoc.
    destruct C1 as (? & ? & ? & ?), C2 as (? & ? & ? & ?).
    repeat split; congruence.
Qed.

(** *** From the call to the running client *)

Lemma launched_log (link : string) (port : Z) (rest : list Z) (s : State) :
  log (launched link port rest s) = (log s ++ launch_log link port)%list.
Proof. unfold launched, launch_log. simpl. now rewrite <- !app_assoc. Qed.

Lemma launched_has_file (link : string) (port : Z) (rest : list Z) (s : State) :
  existsb (String.eqb (tmp_path env)) (files (launched link port rest s)) = true.
Proof.
  simpl. rewrite existsb_app. simpl. rewrite String.eqb_refl.
  now rewrite orb_true_r.
Qed.

Lemma check_launches (fuel : nat) (link : string) (port : Z) (rest : list Z)
    (s : State) :
  not_hysteria (parse_proxy_url link) = false ->
  free_ports s = port :: rest ->
  write_fails env = false ->
  popen_outcome env = Started ->
  check_hysteria_key fuel link s
  = try_finally (check_try fuel link port metrics_init)
      (teardown (Some tt) (tmp_path env) port) (launched link port rest s).
Proof.
  intros Hp Hfree Hw Hs. unfold check_hysteria_key. rewrite Hp.
  unfold bind at 1. unfold take_port. rewrite Hfree.
  unfold bind at 1. unfold mkstemp.
  unfold bind at 1. unfold try_except, write_config. rewrite Hw.
  unfold bind at 1. unfold act. unfold ret at 1. simpl negb. cbv iota.
  unfold bind at 1. unfold run_hysteria, try_except, Popen. rewrite Hs.
  unfold bind at 1. unfold act. unfold ret at 1. reflexivity.
Qed.

(** Once the client has been started, the task gives the port back and
    removes its config file however the [try] body ends, unless it is still
    running. *)
Lemma started_task_releases (fuel : nat) (link : string) (port : Z)
    (rest : list Z) (s s' : State) (r : Result (string * bool * Metrics)) :
  not_hysteria (parse_proxy_url link) = false ->
  free_ports s = port :: rest ->
  write_fails env = false ->
  popen_outcome env = Started ->
  check_hysteria_key fuel link s = (r, s') ->
  r <> Hang ->
  In port (free_ports s') /\ ~ In (tmp_path env) (files s').
Proof.
  intros Hp Hfree Hw Hs Hrun Hr.
  rewrite (check_launches fuel link port rest s Hp Hfree Hw Hs) in Hrun.
  unfold try_finally in Hrun.
  destruct (check_try fuel link port metrics_init (launched link port rest s))
    as [r1 s1].
  destruct (teardown_runs (tmp_path env) port s1) as (s2 & E2 & _ & F2 & P2 & _).
  assert (s' = s2) as ->.
  { destruct r1; rewrite ?E2 in Hrun; inversion Hrun; subst; congruence. }
  rewrite F2, P2. split.
  - unfold pool_return.
    destruct (existsb (Z.eqb port) (free_ports s1)) eqn:E.
    + apply existsb_exists in E as (p & Hin & Hp'). apply Z.eqb_eq in Hp'.
      now subst p.
    + apply in_or_app. right. now left.
  - unfold without. intros Hin. apply filter_In in Hin as [_ Hne].
    rewrite String.eqb_refl in Hne. discriminate Hne.
Qed.

(** *** The startup wait *)

Lemma after_polls_fields (k : nat) (s : State) :
  log (after_polls k s) = (log s ++ poll_log k)%list
  /\ polls (after_polls k s) = (polls s + k)%nat
  /\ files (after_polls k s) = files s
  /\ free_ports (after_polls k s) = free_ports s
  /\ connects (after_polls k s) = connects s
  /\ requests (after_polls k s) = requests s
  /\ clock_reads (after_polls k s) = clock_reads s.
Proof.
  revert s. induction k as [| k IH]; intros s; simpl.
  - rewrite app_nil_r, Nat.add_0_r. repeat split.
  - destruct (IH (emit (EvSleep (HYSTERIA_STARTUP_POLL cfg))
                    (emit (EvPoll false) (count_poll s))))
      as (L & P & F & FP & C & R & K).
    rewrite L, P, F, FP, C, R, K. simpl.
    rewrite <- !app_assoc. simpl. repeat split. lia.
Qed.

(** The loop leaves at the first poll that finds the client gone, when
    that poll happens while [waited] is still below the budget. *)
Lemma startup_wait_exit {R : Type} (leave : M R) (k : nat) :
  forall (fuel : nat) (waited : float) (s : State),
    (k < fuel)%nat ->
    (forall i, (i <= k)%nat ->
               (waited_from waited i <? HYSTERIA_STARTUP_WAIT cfg)%float = true) ->
    (forall i, (i < k)%nat -> poll_exited env (polls s + i) = false) ->
    poll_exited env (polls s + k) = true ->
    startup_wait fuel leave waited s
    = bind leave (fun r => ret (Some r))
        (emit (EvPoll true) (count_poll (after_polls k s))).
Proof.
  induction k as [| k IH]; intros fuel waited s Hfuel Hbudget Halive Hexit.
  - destruct fuel as [| fuel]; [lia |]. simpl.
    pose proof (Hbudget 0%nat (Nat.le_refl _)) as B. simpl in B. rewrite B.
    unfold bind at 1. unfold proc_poll.
    rewrite Nat.add_0_r in Hexit. rewrite Hexit. reflexivity.
  - destruct fuel as [| fuel]; [lia |]. simpl.
    pose proof (Hbudget 0%nat (Nat.le_0_l _)) as B. simpl in B. rewrite B.
    unfold bind at 1. unfold proc_poll.
    pose proof (Halive 0%nat (Nat.lt_0_succ _)) as H0.
    rewrite Nat.add_0_r in H0. rewrite H0.
    unfold bind at 1. unfold sleep, act.
    apply IH.
    + lia.
    + intros i Hi. apply (Hbudget (S i)). lia.
    + intros i Hi. cbn [polls emit count_poll].
      replace (S (polls s) + i)%nat with (polls s + S i)%nat by lia.
      apply Halive. lia.
    + cbn [polls emit count_poll].
      replace (S (polls s) + k)%nat with (polls s + S k)%nat by lia.
      exact Hexit.
Qed.

(** The loop ends without leaving when the budget is used up and every
    poll found the client alive. *)
Lemma startup_wait_completes {R : Type} (leave : M R) (n : nat) :
  forall (fuel : nat) (waited : float) (s : State),
    (n < fuel)%nat ->
    (forall i, (i < n)%nat ->
               (waited_from waited i <? HYSTERIA_STARTUP_WAIT cfg)%float = true) ->
    (waited_from waited n <? HYSTERIA_STARTUP_WAIT cfg)%float = false ->
    (forall i, (i < n)%nat -> poll_exited env (polls s + i) = false) ->
    startup_wait fuel leave waited s = (Done None, after_polls n s).
Proof.
  induction n as [| n IH]; intros fuel waited s Hfuel Hbudget Hend Halive.
  - destruct fuel as [| fuel]; [lia |]. simpl in *. now rewrite Hend.
  - destruct fuel as [| fuel]; [lia |]. simpl.
    pose proof (Hbudget 0%nat (Nat.lt_0_succ _)) as B. simpl in B. rewrite B.
    unfold bind at 1. unfold proc_poll.
    pose proof (Halive 0%nat (Nat.lt_0_succ _)) as H0.
    rewrite Nat.add_0_r in H0. rewrite H0.
    unfold bind at 1. unfold sleep, act.
    apply IH.
    + lia.
    + intros i Hi. apply (Hbudget (S i)). lia.
    + exact Hend.
    + intros i Hi. cbn [polls emit count_poll].
      replace (S (polls s) + i)%nat with (polls s + S i)%nat by lia.
      apply Halive. lia.
Qed.


(** *** The client is ready *)

Lemma check_probes (fuel : nat) (link : string) (port : Z) (s s' : State) :
  client_ready fuel link port s s' ->
  check_hysteria_key fuel link s
  = try_finally (probe link) (teardown (Some tt) (tmp_path env) port) s'.
Proof.
  intros (rest & s1 & Hlink & Hfree & Hw & Hs & Hstart & Hport).
  rewrite (check_launches fuel link port rest s
             (hysteria_link_accepted link Hlink) Hfree Hw Hs).
  unfold try_finally. unfold check_try.
  rewrite (bind_done _ _ _ _ _ Hstart). cbv beta iota.
  rewrite (bind_done _ _ _ _ _ Hport). unfold probe, negb.
  destruct (STRONG_STYLE_TEST cfg); reflexivity.
Qed.

(** *** The strict protocol *)

(** The test the code makes on a reply is [counted] under the limit the
    code computes. *)
Lemma counted_as_tested (r : Reply) :
  reply_ok r 0 (_CLIENT_TEST_HTTPS cfg) && negb (too_slow max_ok_time r)
  = counted (if (0 <? STRONG_MAX_RESPONSE_TIME cfg)%float
             then STRONG_MAX_RESPONSE_TIME cfg else MAX_RESPONSE_TIME cfg) r.
Proof.
  unfold counted, reply_ok, too_slow, max_ok_time.
  destruct (response r) as [resp |]; simpl.
  - destruct (response_truthy resp), (check_response_valid resp 0 (_CLIENT_TEST_HTTPS cfg)),
      (Py.opt_truthy Py.str_truthy (error r)); reflexivity.
  - reflexivity.
Qed.

Lemma strong_attempt_step (a : nat) (m : Metrics) (c : Z) (s : State) :
  strong_attempt max_ok_time a (m, c) s
  = (Done (if reply_ok (reply env (requests s)) 0 (_CLIENT_TEST_HTTPS cfg)
              && negb (too_slow max_ok_time (reply env (requests s)))
           then (add_response_time (elapsed_time (reply env (requests s)))
                   (add_total_request m), c + 1)
           else (add_total_request m, c)),
     emit (EvRequest (_CLIENT_TEST_HTTPS cfg))
       (count_request (if (0 <? a)%nat then emit (EvSleep 0.5%float) s else s))).
Proof.
  unfold strong_attempt, bind, make_request, sleep, act, ret.
  destruct (0 <? a)%nat; cbn;
    destruct (reply_ok (reply env (requests s)) 0 (_CLIENT_TEST_HTTPS cfg));
    destruct (too_slow max_ok_time (reply env (requests s))); reflexivity.
Qed.

Lemma strong_attempts_run (l : list nat) :
  forall (m : Metrics) (c : Z) (s : State),
    let limit := if (0 <? STRONG_MAX_RESPONSE_TIME cfg)%float
                 then STRONG_MAX_RESPONSE_TIME cfg else MAX_RESPONSE_TIME cfg in
    let good := filter (counted limit) (replies_from (requests s) (List.length l)) in
    exists s',
      for_each l (strong_attempt max_ok_time) (m, c) s
      = (Done (mkMetrics (response_times m ++ map elapsed_time good)
                 (successful_urls m) (failed_urls m)
                 (total_requests m + Z.of_nat (List.length l))
                 (successful_requests m),
               c + Z.of_nat (List.length good)), s')
      /\ requests s' = (requests s + List.length l)%nat
      /\ files s' = files s
      /\ free_ports s' = free_ports s.
Proof.
  induction l as [| a l IH]; intros m c s; cbn zeta.
  - exists s. simpl. rewrite app_nil_r, !Z.add_0_r, Nat.add_0_r.
    destruct m; auto.
  - cbn [for_each List.length replies_from seq map filter].
    unfold bind at 1. rewrite strong_attempt_step, counted_as_tested.
    set (limit := if (0 <? STRONG_MAX_RESPONSE_TIME cfg)%float
                  then STRONG_MAX_RESPONSE_TIME cfg else MAX_RESPONSE_TIME cfg).
    set (s1 := emit (EvRequest (_CLIENT_TEST_HTTPS cfg))
                 (count_request (if (0 <? a)%nat then emit (EvSleep 0.5%float) s else s))).
    assert (requests s1 = S (requests s) /\ files s1 = files s
            /\ free_ports s1 = free_ports s) as (R1 & F1 & P1)
      by (unfold s1; destruct (0 <? a)%nat; auto).
    destruct (counted limit (reply env (requests s))) eqn:Ec.
    + destruct (IH (add_response_time (elapsed_time (reply env (requests s)))
                      (add_total_request m)) (c + 1) s1)
        as (s' & E & R & F & P).
      exists s'. cbv zeta in E. fold limit in E. rewrite E, R1. unfold replies_from.
      cbn [add_response_time add_total_request response_times successful_urls
             failed_urls total_requests successful_requests map List.length].
      rewrite <- app_assoc. cbn [app].
      split; [| rewrite R, F, P, R1, F1, P1; repeat split; lia].
      do 3 f_equal; [f_equal; lia | lia].
    + destruct (IH (add_total_request m) c s1) as (s' & E & R & F & P).
      exists s'. cbv zeta in E. fold limit in E. rewrite E, R1. unfold replies_from.
      cbn [add_response_time add_total_request response_times successful_urls
             failed_urls total_requests successful_requests map List.length].
      split; [| rewrite R, F, P, R1, F1, P1; repeat split; lia].
      do 3 f_equal; f_equal; lia.
Qed.

Lemma attempts_total_ge_2 : 2 <= attempts_total.
Proof. unfold attempts_total. lia. Qed.

Lemma range_length (n : Z) : List.length (Py.range n) = Z.to_nat n.
Proof. unfold Py.range. apply length_seq. Qed.

Lemma strong_style_test_runs (link : string) (s : State) :
  let good :=
    strict_good (Z.max 2 (STRONG_ATTEMPTS cfg))
      (if (0 <? STRONG_MAX_RESPONSE_TIME cfg)%float
       then STRONG_MAX_RESPONSE_TIME cfg else MAX_RESPONSE_TIME cfg) s in
  let n := Z.of_nat (List.length good) in
  exists s',
    strong_style_test link metrics_init s
    = (Done (link, 2 <=? n,
             if 2 <=? n
             then mkMetrics (map elapsed_time good) 1 0
                    (Z.max 2 (STRONG_ATTEMPTS cfg)) n
             else mkMetrics (map elapsed_time good) 0 0
                    (Z.max 2 (STRONG_ATTEMPTS cfg)) 0),
       s')
    /\ requests s' = (requests s + Z.to_nat (Z.max 2 (STRONG_ATTEMPTS cfg)))%nat
    /\ files s' = files s /\ free_ports s' = free_ports s.
Proof.
  cbn zeta. unfold strong_style_test.
  destruct (strong_attempts_run (Py.range attempts_total) metrics_init 0 s)
    as (s' & E & R & F & P).
  cbn zeta in E. rewrite range_length in E, R. unfold attempts_total in E, R.
  exists s'. split; [| auto].
  rewrite (bind_done _ _ _ _ _ E). unfold strict_good.
  cbn [metrics_init response_times successful_urls
    failed_urls total_requests successful_requests app].
  rewrite Z.add_0_l, Z.add_0_l, Z2Nat.id by lia.
  match goal with |- context [2 <=? ?n] => destruct (2 <=? n) end; reflexivity.
Qed.

(** A [try] body that completes is followed by the teardown, and its value
    is the value of the function. *)
Lemma try_finally_done {A : Type} (body : M A) (a : A) (path : string) (port : Z)
    (s s1 : State) :
  body s = (Done a, s1) ->
  exists s2,
    try_finally body (teardown (Some tt) path port) s = (Done a, s2)
    /\ files s2 = without path (files s1)
    /\ free_ports s2 = pool_return port (free_ports s1).
Proof.
  intros E. destruct (teardown_runs path port s1) as (s2 & E2 & _ & F2 & P2 & _).
  exists s2. unfold try_finally. rewrite E, E2. auto.
Qed.

(** The same, for the counters: the teardown makes no request. *)
Lemma try_finally_done_requests {A : Type} (body : M A) (a : A) (path : string)
    (port : Z) (s s1 : State) :
  body s = (Done a, s1) ->
  exists s2,
    try_finally body (teardown (Some tt) path port) s = (Done a, s2)
    /\ requests s2 = requests s1.
Proof.
  intros E. destruct (teardown_runs path port s1) as (s2 & E2 & _ & _ & _ & C).
  exists s2. unfold try_finally. rewrite E, E2. split; [reflexivity |].
  unfold same_counters in C. destruct C as (? & ? & ? & ?). congruence.
Qed.

(** What [counted] asks of a reply, spelled out. *)
Lemma counted_iff (limit : float) (r : Reply) :
  counted limit r = true
  <-> (exists resp, response r = Some resp
                    /\ response_truthy resp = true
                    /\ check_response_valid resp 0 (_CLIENT_TEST_HTTPS cfg) = true)
      /\ Py.opt_truthy Py.str_truthy (error r) = false
      /\ ((0 <? limit)%float = true ->
          (limit <? elapsed_time r)%float = false).
Proof.
  unfold counted. split.
  - intros H. apply andb_true_iff in H as [H Hslow].
    apply andb_true_iff in H as [Hresp Herr].
    apply negb_true_iff in Herr. apply negb_true_iff in Hslow.
    destruct (response r) as [resp |]; [| discriminate Hresp].
    apply andb_true_iff in Hresp as [Ht Hv].
    split; [exists resp; auto |]. split; [exact Herr |].
    intros Hpos. rewrite Hpos in Hslow. exact Hslow.
  - intros ((resp & Hr & Ht & Hv) & Herr & Hslow).
    rewrite Hr, Ht, Hv, Herr. simpl.
    destruct (0 <? limit)%float; [| reflexivity].
    rewrite (Hslow eq_refl). reflexivity.
Qed.

(** C3. In the strict protocol the task makes [max(2, STRONG_ATTEMPTS)]
    attempts, always all of them, and the candidate passes exactly when at
    least two of them were successes, whatever that number of attempts is. *)
Theorem strict_pass_iff_two_successes (fuel : nat) (link : string) (port : Z)
    (s s1 : State) :
  STRONG_STYLE_TEST cfg = true ->
  client_ready fuel link port s s1 ->
  let n := Z.max 2 (STRONG_ATTEMPTS cfg) in
  let limit := if (0 <? STRONG_MAX_RESPONSE_TIME cfg)%float
               then STRONG_MAX_RESPONSE_TIME cfg else MAX_RESPONSE_TIME cfg in
  exists ok m s',
    check_hysteria_key fuel link s = (Done (link, ok, m), s')
    /\ attempts_total = n
    /\ 2 <= attempts_total
    /\ total_requests m = n
    /\ requests s' = (requests s1 + Z.to_nat n)%nat
    /\ (ok = true <-> 2 <= Z.of_nat (List.length (strict_good n limit s1))).
Proof.
  intros Hstrong Hready. cbn zeta.
  rewrite (check_probes fuel link port s s1 Hready). unfold probe. rewrite Hstrong.
  destruct (strong_style_test_runs link s1) as (s2 & E & R & _). cbn zeta in E.
  destruct (try_finally_done_requests _ _ (tmp_path env) port s1 s2 E)
    as (s3 & E3 & R3).
  do 3 eexists. split; [exact E3 |]. split; [reflexivity |].
  split; [exact attempts_total_ge_2 |].
  split; [| split; [congruence | apply Z.leb_le]].
  match goal with |- context [2 <=? ?n] => destruct (2 <=? n) end; reflexivity.
Qed.

(** C4. In the strict protocol the time limit is [STRONG_MAX_RESPONSE_TIME]
    when that is positive and [MAX_RESPONSE_TIME] otherwise.  An attempt is
    a success only when a response came back, no error is reported, the
    response is valid, and (when the limit is positive) its elapsed time is
    not greater than the limit, which for an elapsed time that is a number
    means at most the limit; an attempt slower than a positive limit is
    never one.  The recorded [response_times] are the elapsed times of the
    successes, in order; the candidate passes when there are two of them,
    and on a pass [successful_requests] is their number. *)
Theorem strict_samples_are_counted_attempts (fuel : nat) (link : string)
    (port : Z) (s s1 : State) :
  STRONG_STYLE_TEST cfg = true ->
  client_ready fuel link port s s1 ->
  let n := Z.max 2 (STRONG_ATTEMPTS cfg) in
  let limit := if (0 <? STRONG_MAX_RESPONSE_TIME cfg)%float
               then STRONG_MAX_RESPONSE_TIME cfg else MAX_RESPONSE_TIME cfg in
  max_ok_time = limit
  /\ (forall r, counted limit r = true
                <-> (exists resp, response r = Some resp
                                  /\ response_truthy resp = true
                                  /\ check_response_valid resp 0 (_CLIENT_TEST_HTTPS cfg)
                                     = true)
                    /\ Py.opt_truthy Py.str_truthy (error r) = false
                    /\ ((0 <? limit)%float = true ->
                        (limit <? elapsed_time r)%float = false))
  /\ (forall r, counted limit r = true ->
                 (0 <? limit)%float = true ->
                 PrimFloat.is_nan (elapsed_time r) = false ->
                 (elapsed_time r <=? limit)%float = true)
  /\ (forall r, (0 <? limit)%float = true ->
                 (limit <? elapsed_time r)%float = true ->
                 counted limit r = false)
  /\ exists ok m s',
       check_hysteria_key fuel link s = (Done (link, ok, m), s')
       /\ response_times m = map elapsed_time (strict_good n limit s1)
       /\ ok = (2 <=? Z.of_nat (List.length (response_times m)))
       /\ (ok = true ->
           successful_requests m = Z.of_nat (List.length (response_times m))).
Proof.
  intros Hstrong Hready. cbn zeta.
  split; [reflexivity |]. split; [intros r; apply counted_iff |]. split.
  { intros r Hr Hpos Hnum. apply float_not_gt_le.
    - exact Hnum.
    - exact (float_lt_not_nan _ _ Hpos).
    - exact (proj2 (proj2 (proj1 (counted_iff _ r) Hr)) Hpos). }
  split.
  { intros r Hpos Hslow. unfold counted. rewrite Hpos, Hslow. simpl.
    now rewrite andb_false_r. }
  rewrite (check_probes fuel link port s s1 Hready). unfold probe. rewrite Hstrong.
  destruct (strong_style_test_runs link s1) as (s2 & E & _). cbn zeta in E.
  destruct (try_finally_done _ _ (tmp_path env) port s1 s2 E) as (s3 & E3 & _).
  do 3 eexists. split; [exact E3 |].
  match goal with |- context [2 <=? ?n] => destruct (2 <=? n) eqn:E2 end;
    cbn [response_times successful_requests]; rewrite length_map, E2;
    repeat split; auto; discriminate.
Qed.

(** *** The stability protocol *)

Lemma for_each_done {A B : Type} (body : A -> B -> M B) (l : list A) :
  (forall x acc s, exists acc' s', body x acc s = (Done acc', s')) ->
  forall acc s, exists acc' s', for_each l body acc s = (Done acc', s').
Proof.
  intros Hbody. induction l as [| x l IH]; intros acc s; simpl.
  - exists acc, s. reflexivity.
  - destruct (Hbody x acc s) as (acc1 & s1 & E1).
    destruct (IH acc1 s1) as (acc2 & s2 & E2).
    exists acc2, s2. now rewrite (bind_done _ _ _ _ _ E1).
Qed.

Lemma stability_request_done (url : string) (request_num : nat)
    (acc : Metrics * Z) (s : State) :
  exists acc' s', stability_request url request_num acc s = (Done acc', s').
Proof.
  destruct acc as [metrics request_ok].
  unfold stability_request, bind, sleep, act, make_request, ret.
  destruct (0 <? request_num)%nat; cbv beta iota;
    match goal with
    | |- context [reply_ok ?r ?n ?u] => destruct (reply_ok r n u)
    end;
    try match goal with
        | |- context [too_slow ?t ?r] => destruct (too_slow t r)
        end;
    eexists; eexists; reflexivity.
Qed.

Lemma stability_url_done (u : string * string) (acc : Metrics * Z) (s : State) :
  exists acc' s', stability_url u acc s = (Done acc', s').
Proof.
  destruct acc as [metrics successful_urls_count]. unfold stability_url.
  destruct (for_each_done (stability_request (fst u))
              (Py.range (REQUESTS_PER_URL cfg)) (stability_request_done (fst u))
              (metrics, 0) s) as ([metrics' request_ok] & s' & E).
  rewrite (bind_done _ _ _ _ _ E).
  destruct (MIN_SUCCESSFUL_REQUESTS cfg <=? request_ok);
    eexists; eexists; reflexivity.
Qed.

(** With [REQUIRE_HTTPS] set and no https URL in the list, a round is
    recorded as failed whatever the requests return. *)
Lemma forced_round_fails (stability_check : nat) (metrics : Metrics)
    (stability_results : list bool) (last : option Z) (s : State) :
  REQUIRE_HTTPS cfg = true ->
  has_https = false ->
  exists metrics' successful_urls_count s',
    stability_round stability_check (metrics, stability_results, last) s
    = (Done (metrics', (stability_results ++ [false])%list,
             Some successful_urls_count), s').
Proof.
  intros Hreq Hhttps. unfold stability_round.
  set (s0 := if (0 <? stability_check)%nat
             then emit (EvSleep (STABILITY_CHECK_DELAY cfg)) s else s).
  destruct (for_each_done stability_url all_urls stability_url_done (metrics, 0) s0)
    as ([metrics' successful_urls_count] & s' & E).
  exists metrics', successful_urls_count, s'.
  assert ((if (0 <? stability_check)%nat
           then sleep (STABILITY_CHECK_DELAY cfg) else ret tt) s = (Done tt, s0))
    as E0 by (unfold s0; destruct (0 <? stability_check)%nat; reflexivity).
  rewrite (bind_done _ _ _ _ _ E0), (bind_done _ _ _ _ _ E).
  rewrite Hreq, Hhttps. reflexivity.
Qed.

Lemma forced_rounds_fail (rounds : list nat) :
  REQUIRE_HTTPS cfg = true ->
  has_https = false ->
  forall metrics stability_results last s,
    exists metrics' last' s',
      for_each rounds stability_round (metrics, stability_results, last) s
      = (Done (metrics',
               (stability_results ++ repeat false (List.length rounds))%list,
               last'), s').
Proof.
  intros Hreq Hhttps.
  induction rounds as [| i rounds IH]; intros metrics stability_results last s; simpl.
  - exists metrics, last, s. now rewrite app_nil_r.
  - destruct (forced_round_fails i metrics stability_results last s Hreq Hhttps)
      as (m1 & c1 & s1 & E1).
    destruct (IH m1 (stability_results ++ [false])%list (Some c1) s1)
      as (m2 & last2 & s2 & E2).
    exists m2, last2, s2. rewrite (bind_done _ _ _ _ _ E1), E2.
    now rewrite <- app_assoc.
Qed.

(** With two rounds or more, such a candidate is rejected. *)
Lemma forced_failure_rejects_with_two_rounds (fuel : nat) (link : string)
    (port : Z) (s s1 : State) :
  STRONG_STYLE_TEST cfg = false ->
  client_ready fuel link port s s1 ->
  2 <= STABILITY_CHECKS cfg ->
  REQUIRE_HTTPS cfg = true ->
  has_https = false ->
  exists m s', check_hysteria_key fuel link s = (Done (link, false, m), s').
Proof.
  intros Hstrong Hready Hrounds Hreq Hhttps.
  rewrite (check_probes fuel link port s s1 Hready). unfold probe. rewrite Hstrong.
  destruct (forced_rounds_fail (Py.range (STABILITY_CHECKS cfg)) Hreq Hhttps
              metrics_init [] None s1) as (m2 & last2 & s2 & E2).
  assert (stability_test link metrics_init s1 = (Done (link, false, m2), s2)) as E.
  { unfold stability_test, stability_rounds. rewrite (bind_done _ _ _ _ _ E2).
    rewrite range_length. cbn [app].
    destruct (Z.to_nat (STABILITY_CHECKS cfg)) as [| n] eqn:En; [lia |].
    replace (1 <? STABILITY_CHECKS cfg) with true by (symmetry; apply Z.ltb_lt; lia).
    reflexivity. }
  destruct (try_finally_done _ _ (tmp_path env) port s1 s2 E) as (s3 & E3 & _).
  exists m2, s3. exact E3.
Qed.

(** *** The result loop of the checker *)

(** The latency the loop computes is the average of the samples, in
    milliseconds. *)
Lemma latency_ms_is_mean (metrics : Metrics) :
  latency_ms metrics = mean_ms (response_times metrics).
Proof.
  unfold latency_ms, mean_ms, average.
  destruct (response_times metrics); reflexivity.
Qed.

Lemma collect_one_available (link_to_full : list (string * string))
    (c : Collected) (fut : string * (Py.Exc + string * bool * Metrics)) :
  available (collect_one link_to_full c fut)
  = (available c ++ if kept fut then [kept_entry link_to_full fut] else [])%list.
Proof.
  unfold collect_one, kept, kept_entry.
  destruct fut as [link0 [e | [[link ok] metrics]]]; simpl;
    [now rewrite app_nil_r |].
  rewrite latency_ms_is_mean.
  destruct ok; simpl; [| now rewrite app_nil_r].
  destruct (mean_ms (response_times metrics) <=? MAX_LATENCY_MS cfg)%float; simpl;
    [reflexivity | now rewrite app_nil_r].
Qed.

Lemma collect_available (link_to_full : list (string * string))
    (futures : list (string * (Py.Exc + string * bool * Metrics))) :
  forall c,
    available (fold_left (collect_one link_to_full) futures c)
    = (available c ++ map (kept_entry link_to_full) (filter kept futures))%list.
Proof.
  induction futures as [| fut futures IH]; intros c; simpl.
  - now rewrite app_nil_r.
  - rewrite IH, collect_one_available.
    destruct (kept fut); simpl; [now rewrite <- app_assoc | now rewrite app_nil_r].
Qed.

Lemma none_returned_none_kept
    (futures : list (string * (Py.Exc + string * bool * Metrics))) :
  existsb returned futures = false -> filter kept futures = [].
Proof.
  induction futures as [| fut futures IH]; simpl; [reflexivity |].
  intros H. apply orb_false_iff in H as [Hfut Hrest].
  unfold kept, returned in *. destruct (snd fut); [| discriminate Hfut].
  auto.
Qed.

(** The description is refreshed by each future that returns and by no
    other: it shows the length of [available] as of the last of them. *)
Lemma collect_description (link_to_full : list (string * string))
    (futures : list (string * (Py.Exc + string * bool * Metrics))) :
  forall c,
    option_map fst (description (fold_left (collect_one link_to_full) futures c))
    = if existsb returned futures
      then Some (Z.of_nat (List.length
                             (available (fold_left (collect_one link_to_full)
                                           futures c))))
      else option_map fst (description c).
Proof.
  induction futures as [| fut futures IH]; intros c; simpl; [reflexivity |].
  rewrite IH. unfold returned at 2.
  destruct (existsb returned futures) eqn:Erest; [now rewrite orb_true_r |].
  rewrite orb_false_r, collect_available, (none_returned_none_kept _ Erest).
  simpl. rewrite app_nil_r.
  unfold collect_one. destruct fut as [link0 [e | [[link ok] metrics]]]; simpl;
    [reflexivity |].
  destruct ok; [| reflexivity].
  destruct (latency_ms metrics <=? MAX_LATENCY_MS cfg)%float; reflexivity.
Qed.

(** *** Sorting keeps the elements *)

Lemma In_firstn {A : Type} (n : nat) (x : A) (l : list A) :
  In x (firstn n l) -> In x l.
Proof.
  intros H. rewrite <- (firstn_skipn n l). apply in_or_app. now left.
Qed.

Lemma In_insert_by {A : Type} (key : A -> float) (x a : A) (l : list A) :
  In x (insert_by key a l) <-> x = a \/ In x l.
Proof.
  induction l as [| y l IH]; simpl.
  - intuition congruence.
  - destruct (key a <? key y)%float; simpl; [intuition congruence |].
    rewrite IH. intuition congruence.
Qed.

Lemma In_sorted_by {A : Type} (key : A -> float) (x : A) (l : list A) :
  In x (sorted_by key l) <-> In x l.
Proof.
  unfold sorted_by.
  assert (forall acc, In x (fold_left (fun acc a => insert_by key a acc) l acc)
                      <-> In x acc \/ In x l) as H.
  { induction l as [| a l IH]; intros acc; simpl; [tauto |].
    rewrite IH, In_insert_by. intuition congruence. }
  rewrite H. simpl. tauto.
Qed.

(** C9. After the result loop, [available] holds exactly the futures that
    are kept, in completion order: those whose check passed and whose
    average response time (the sum of the samples over their number, times
    1000 for milliseconds) is at most [MAX_LATENCY_MS]; the OK total the
    progress line shows is their number, once a future has returned; every
    line of the result file and of the top-100 file comes from such a
    future; and a passing candidate above the limit leaves [available] as
    it was. *)
Theorem latency_filter_on_passing_candidates
    (link_to_full : list (string * string))
    (futures : list (string * (Py.Exc + string * bool * Metrics))) :
  let c := main_collect link_to_full futures in
  available c = map (kept_entry link_to_full) (filter kept futures)
  /\ option_map fst (description c)
     = (if existsb returned futures
        then Some (Z.of_nat (List.length (filter kept futures))) else None)
  /\ (forall line,
        In line (lines_out c) \/ In line (top100_lines c) ->
        exists link0 link metrics,
          In (link0, inr (link, true, metrics)) futures
          /\ (mean_ms (response_times metrics) <=? MAX_LATENCY_MS cfg)%float = true
          /\ line = full_line link_to_full link)
  /\ (forall c0 link0 link metrics,
        (mean_ms (response_times metrics) <=? MAX_LATENCY_MS cfg)%float = false ->
        available (collect_one link_to_full c0 (link0, inr (link, true, metrics)))
        = available c0).
Proof.
  cbn zeta.
  assert (available (main_collect link_to_full futures)
          = map (kept_entry link_to_full) (filter kept futures)) as Hav
    by (unfold main_collect; now rewrite collect_available).
  split; [exact Hav |]. split.
  { unfold main_collect in *. rewrite collect_description, Hav, length_map.
    reflexivity. }
  split.
  - intros line Hline.
    assert (In line (lines_out (main_collect link_to_full futures))) as Hin.
    { destruct Hline as [H | H]; [exact H |].
      unfold top100_lines in H. now apply In_firstn in H. }
    unfold lines_out, available_sorted in Hin.
    apply in_map_iff in Hin as ([line' lat] & Hfst & Hin). simpl in Hfst. subst line'.
    apply In_sorted_by in Hin. rewrite Hav in Hin.
    apply in_map_iff in Hin as (fut & Hentry & Hin).
    apply filter_In in Hin as [Hin Hkept].
    destruct fut as [link0 [e | [[link ok] metrics]]];
      unfold kept in Hkept; simpl in Hkept; [discriminate |].
    apply andb_true_iff in Hkept as [Hok Hlat]. subst ok.
    unfold kept_entry in Hentry. simpl in Hentry. inversion Hentry; subst.
    exists link0, link, metrics. auto.
  - intros c0 link0 link metrics Hlat. rewrite collect_one_available.
    unfold kept. simpl. rewrite Hlat. now rewrite app_nil_r.
Qed.

(** *** The download score *)

Lemma test_download_speed_runs (url : string) (timeout_sec : Z) (s s1 : State)
    (downloaded : Z) :
  stream_read url timeout_sec s downloaded s1 ->
  _test_download_speed url timeout_sec s
  = (Done (download_result downloaded (download_elapsed s s1)), count_clock s1).
Proof.
  intros (Hget & Hstatus & Hread).
  unfold _test_download_speed, try_except.
  unfold bind at 1. unfold perf_counter at 1.
  unfold bind at 1. unfold requests_get. rewrite Hget, Hstatus.
  unfold bind at 1. unfold act. unfold ret at 1.
  cbn [Z.eqb Pos.eqb negb]. cbv iota.
  unfold bind at 1. cbn [clock_reads count_clock emit] in *. rewrite Hread.
  unfold bind at 1. unfold perf_counter.
  unfold download_result, download_elapsed, mbps.
  destruct (clock env (clock_reads s1) - clock env (clock_reads s) <? 0.3)%float;
    reflexivity.
Qed.

Lemma str_truthy_nonempty (u : string) : u <> "" -> Py.str_truthy u = true.
Proof. destruct u; [congruence | reflexivity]. Qed.

Lemma speed_score_downloads (proxy_line : string) (response_times : list float)
    (metric mode : string) (download_timeout : Z)
    (download_url_small download_url_medium url : string) (timeout_sec : Z) :
  response_times <> [] ->
  download_mode mode download_timeout download_url_small download_url_medium
    url timeout_sec ->
  speed_score proxy_line response_times metric mode download_timeout
    download_url_small download_url_medium
  = (speed_mbps <- _test_download_speed url timeout_sec ;;
     match speed_mbps with
     | Some v => ret (Some (proxy_line, v))
     | None => ret None
     end).
Proof.
  intros Hrt Hmode. unfold speed_score.
  destruct response_times as [| t ts]; [congruence |]. cbn [Py.list_truthy negb].
  destruct Hmode as [(-> & -> & Hu & ->) | (-> & -> & Hu & ->)].
  - rewrite (str_truthy_nonempty _ Hu). reflexivity.
  - rewrite (str_truthy_nonempty _ Hu). reflexivity.
Qed.

Lemma speed_launches (fuel : nat) (proxy_line : string) (port : Z)
    (timeout : float) (metric : string) (requests_count : Z) (test_url mode : string)
    (download_timeout : Z) (download_url_small download_url_medium : string)
    (rest : list Z) (s : State) :
  not_hysteria (parse_proxy_url proxy_line) = false ->
  free_ports s = port :: rest ->
  write_fails env = false ->
  popen_outcome env = Started ->
  speed_test_hysteria_key fuel proxy_line timeout metric requests_count test_url
    mode download_timeout download_url_small download_url_medium s
  = try_finally
      (speed_try fuel proxy_line port timeout metric requests_count test_url
         mode download_timeout download_url_small download_url_medium)
      (teardown (Some tt) (tmp_path env) port) (launched proxy_line port rest s).
Proof.
  intros Hp Hfree Hw Hs. unfold speed_test_hysteria_key. rewrite Hp.
  unfold bind at 1. unfold take_port. rewrite Hfree.
  unfold bind at 1. unfold mkstemp.
  unfold bind at 1. unfold try_except, write_config. rewrite Hw.
  unfold bind at 1. unfold act. unfold ret at 1. simpl negb. cbv iota.
  unfold bind at 1. unfold run_hysteria, try_except, Popen. rewrite Hs.
  unfold bind at 1. unfold act. unfold ret at 1. reflexivity.
Qed.

Lemma speed_test_scores (fuel : nat) (proxy_line : string) (port : Z)
    (timeout : float) (metric : string) (requests_count : Z) (test_url mode : string)
    (download_timeout : Z) (download_url_small download_url_medium : string)
    (s : State) (response_times : list float) (s' : State) :
  speed_probed fuel proxy_line port timeout requests_count test_url
    s response_times s' ->
  speed_test_hysteria_key fuel proxy_line timeout metric requests_count test_url
    mode download_timeout download_url_small download_url_medium s
  = try_finally
      (speed_score proxy_line response_times metric mode download_timeout
         download_url_small download_url_medium)
      (teardown (Some tt) (tmp_path env) port) s'.
Proof.
  intros (rest & s1 & s2 & Hlink & Hfree & Hw & Hs & Hstart & Hport & Hprobe).
  rewrite (speed_launches fuel proxy_line port timeout metric requests_count
             test_url mode download_timeout download_url_small download_url_medium
             rest s (hysteria_link_accepted _ Hlink) Hfree Hw Hs).
  unfold try_finally, speed_try.
  rewrite (bind_done _ _ _ _ _ Hstart). cbv beta iota.
  rewrite (bind_done _ _ _ _ _ Hport). cbn [negb]. cbv iota.
  unfold bind at 1. unfold perf_counter at 1.
  rewrite (bind_done _ _ _ _ _ Hprobe). reflexivity.
Qed.

(** Every ranked entry is a pair some task returned: a task that returned
    [None], or raised, adds nothing. *)
Lemma speedtest_collect_spec (futures : list (Py.Exc + option (string * float))) :
  forall results,
    fold_left
      (fun results fut =>
         match fut with
         | inr (Some scored) => (results ++ [scored])%list
         | _ => results
         end) futures results
    = (results
       ++ flat_map (fun fut => match fut with
                               | inr (Some scored) => [scored]
                               | _ => []
                               end) futures)%list.
Proof.
  induction futures as [| fut futures IH]; intros results; simpl.
  - now rewrite app_nil_r.
  - rewrite IH. destruct fut as [e | [scored |]]; simpl;
      [reflexivity | now rewrite <- app_assoc | reflexivity].
Qed.

Lemma In_sort_results (mode metric : string) (x : string * float)
    (results : list (string * float)) :
  In x (sort_results mode metric results) <-> In x results.
Proof.
  unfold sort_results.
  destruct (((mode =? "quick")%string || (mode =? "full")%string)
            || (metric =? "throughput")%string).
  - rewrite <- in_rev, In_sorted_by, <- in_rev. tauto.
  - apply In_sorted_by.
Qed.

Lemma ranked_entries_were_returned (mode metric : string) (x : string * float)
    (futures : list (Py.Exc + option (string * float))) :
  In x (sort_results mode metric (speedtest_collect futures))
  <-> In (inr (Some x)) futures.
Proof.
  rewrite In_sort_results. unfold speedtest_collect.
  rewrite speedtest_collect_spec. simpl. rewrite in_flat_map. split.
  - intros (fut & Hin & Hx). destruct fut as [e | [scored |]]; simpl in Hx;
      try contradiction. destruct Hx as [-> | []]. exact Hin.
  - intros Hin. exists (inr (Some x)). simpl. auto.
Qed.


(** *** What a started task leaves behind *)

Lemma pool_return_idem (p : Z) (l : list Z) :
  pool_return p (pool_return p l) = pool_return p l.
Proof.
  unfold pool_return. destruct (existsb (Z.eqb p) l) eqn:E.
  - now rewrite E.
  - rewrite existsb_app. cbn [existsb]. rewrite Z.eqb_refl.
    now rewrite orb_true_r.
Qed.

Lemma pool_step_refl (port : Z) (s : State) : pool_step port s s.
Proof. split; auto. Qed.

Lemma pool_step_trans (port : Z) (s1 s2 s3 : State) :
  pool_step port s1 s2 -> pool_step port s2 s3 -> pool_step port s1 s3.
Proof.
  intros [F1 P1] [F2 P2]. split; [congruence |].
  destruct P1 as [P1 | P1], P2 as [P2 | P2]; rewrite P2, P1;
    rewrite ?pool_return_idem; auto.
Qed.

Lemma keeps_ret {A : Type} (port : Z) (a : A) : keeps port (ret a).
Proof. intros s. apply pool_step_refl. Qed.

Lemma keeps_raise {A : Type} (port : Z) (e : Py.Exc) : keeps port (@raise A e).
Proof. intros s. apply pool_step_refl. Qed.

Lemma keeps_hang {A : Type} (port : Z) : keeps port (@hang A).
Proof. intros s. apply pool_step_refl. Qed.

Lemma keeps_bind {A B : Type} (port : Z) (c : M A) (k : A -> M B) :
  keeps port c -> (forall a, keeps port (k a)) -> keeps port (bind c k).
Proof.
  intros Hc Hk s. unfold bind. specialize (Hc s).
  destruct (c s) as [[a | e |] s1]; simpl in *; auto.
  eapply pool_step_trans; [exact Hc | apply Hk].
Qed.

Lemma keeps_try_except {A : Type} (port : Z) (body handler : M A)
    (handled : Py.Exc -> bool) :
  keeps port body -> keeps port handler ->
  keeps port (try_except body handled handler).
Proof.
  intros Hb Hh s. unfold try_except. specialize (Hb s).
  destruct (body s) as [[a | e |] s1]; simpl in *; auto.
  destruct (handled e); simpl; auto.
  eapply pool_step_trans; [exact Hb | apply Hh].
Qed.

Lemma keeps_emit (port : Z) (e : Event) : keeps port (act (emit e)).
Proof. intros s. split; auto. Qed.

Lemma keeps_return_port (port : Z) : keeps port (return_port port).
Proof. intros s. split; simpl; auto. Qed.

Lemma keeps_if {A : Type} (port : Z) (b : bool) (c1 c2 : M A) :
  keeps port c1 -> keeps port c2 -> keeps port (if b then c1 else c2).
Proof. now destruct b. Qed.

Lemma keeps_for_each {A B : Type} (port : Z) (body : A -> B -> M B) (l : list A) :
  (forall x acc, keeps port (body x acc)) ->
  forall acc, keeps port (for_each l body acc).
Proof.
  intros Hbody. induction l as [| x l IH]; intros acc; simpl.
  - apply keeps_ret.
  - apply keeps_bind; auto.
Qed.

Lemma keeps_perf_counter (port : Z) : keeps port perf_counter.
Proof. intros s. split; auto. Qed.

Lemma keeps_proc_poll (port : Z) : keeps port proc_poll.
Proof. intros s. split; auto. Qed.

Lemma keeps_create_connection (port : Z) (host : string) (p : Z) :
  keeps port (create_connection host p).
Proof. intros s. split; auto. Qed.

Lemma keeps_make_request (port : Z) (url : string) : keeps port (make_request url).
Proof. intros s. split; auto. Qed.

Lemma keeps_sleep (port : Z) (t : float) : keeps port (sleep t).
Proof. apply keeps_emit. Qed.

Create HintDb keeps.

#[local] Hint Resolve keeps_ret keeps_raise keeps_hang keeps_emit keeps_return_port
  keeps_perf_counter keeps_proc_poll keeps_create_connection keeps_make_request
  keeps_sleep : keeps.

Ltac keeps_step :=
  first
    [ solve [auto with keeps]
    | apply keeps_bind; [| intros ?]
    | apply keeps_try_except
    | apply keeps_if
    | apply keeps_for_each; intros ? ?
    | match goal with
      | |- keeps _ (match ?x with _ => _ end) => destruct x
      end ].

Lemma keeps_startup_wait {R : Type} (port : Z) (leave : M R) (fuel : nat) :
  keeps port leave -> forall waited, keeps port (startup_wait fuel leave waited).
Proof.
  intros Hl. induction fuel as [| fuel IH]; intros waited; simpl.
  - apply keeps_hang.
  - repeat keeps_step.
Qed.

Lemma keeps_wait_for_port (port : Z) (fuel : nat) (host : string) (p : Z)
    (max_wait poll_interval : float) :
  keeps port (_wait_for_port fuel host p max_wait poll_interval).
Proof.
  unfold _wait_for_port. keeps_step; [auto with keeps |].
  generalize (a + max_wait)%float as deadline. clear a.
  induction fuel as [| fuel IH]; intros deadline; simpl.
  - apply keeps_hang.
  - repeat keeps_step.
Qed.

Lemma keeps_strong_attempt (port : Z) (t : float) (attempt : nat)
    (acc : Metrics * Z) :
  keeps port (strong_attempt t attempt acc).
Proof. unfold strong_attempt. destruct acc. repeat keeps_step. Qed.

#[local] Hint Resolve keeps_startup_wait keeps_wait_for_port
  keeps_strong_attempt : keeps.

Lemma keeps_strong_style_test (port : Z) (link : string) (m : Metrics) :
  keeps port (strong_style_test link m).
Proof. unfold strong_style_test. repeat keeps_step. Qed.

Lemma keeps_stability_request (port : Z) (url : string) (request_num : nat)
    (acc : Metrics * Z) :
  keeps port (stability_request url request_num acc).
Proof. unfold stability_request. destruct acc. repeat keeps_step. Qed.

#[local] Hint Resolve keeps_strong_style_test keeps_stability_request : keeps.

Lemma keeps_stability_url (port : Z) (u : string * string) (acc : Metrics * Z) :
  keeps port (stability_url u acc).
Proof. unfold stability_url. destruct acc. repeat keeps_step. Qed.

#[local] Hint Resolve keeps_stability_url : keeps.

Lemma keeps_stability_round (port : Z) (stability_check : nat)
    (acc : Metrics * list bool * option Z) :
  keeps port (stability_round stability_check acc).
Proof. unfold stability_round. destruct acc as [[? ?] ?]. repeat keeps_step. Qed.

#[local] Hint Resolve keeps_stability_round : keeps.

Lemma keeps_stability_test (port : Z) (link : string) (m : Metrics) :
  keeps port (stability_test link m).
Proof. unfold stability_test, stability_rounds. repeat keeps_step. Qed.

#[local] Hint Resolve keeps_stability_test : keeps.

Lemma keeps_check_try (port : Z) (fuel : nat) (link : string) (m : Metrics) :
  keeps port (check_try fuel link port m).
Proof.
  unfold check_try. apply keeps_bind.
  - apply keeps_startup_wait. repeat keeps_step.
  - intros early. repeat keeps_step.
Qed.

Lemma keeps_read_chunks (port : Z) (sizes : list nat) (start_time : float)
    (timeout_sec : Z) :
  forall downloaded, keeps port (read_chunks sizes start_time timeout_sec downloaded).
Proof.
  induction sizes as [| size rest IH]; intros downloaded; simpl; repeat keeps_step.
Qed.

Lemma keeps_test_download_speed (port : Z) (url : string) (timeout_sec : Z) :
  keeps port (_test_download_speed url timeout_sec).
Proof.
  unfold _test_download_speed, requests_get.
  pose proof (keeps_read_chunks port) as H. repeat keeps_step.
Qed.

Lemma keeps_latency_probes (port : Z) (n : nat) (test_url : string)
    (deadline : float) :
  forall response_times,
    keeps port (latency_probes n test_url deadline response_times).
Proof.
  induction n as [| n IH]; intros response_times; simpl; repeat keeps_step.
Qed.

#[local] Hint Resolve keeps_test_download_speed keeps_latency_probes : keeps.

Lemma keeps_speed_score (port : Z) (proxy_line : string)
    (response_times : list float) (metric mode : string) (download_timeout : Z)
    (download_url_small download_url_medium : string) :
  keeps port (speed_score proxy_line response_times metric mode download_timeout
                download_url_small download_url_medium).
Proof. unfold speed_score. repeat keeps_step. Qed.

#[local] Hint Resolve keeps_speed_score : keeps.

Lemma keeps_speed_try (port : Z) (fuel : nat) (proxy_line : string)
    (timeout : float) (metric : string) (requests_count : Z) (test_url mode : string)
    (download_timeout : Z) (download_url_small download_url_medium : string) :
  keeps port (speed_try fuel proxy_line port timeout metric requests_count test_url
                mode download_timeout download_url_small download_url_medium).
Proof.
  unfold speed_try. apply keeps_bind.
  - apply keeps_startup_wait. repeat keeps_step.
  - intros early. repeat keeps_step.
Qed.

Lemma without_appended (path : string) (fs : list string) :
  ~ In path fs -> without path (fs ++ [path]) = fs.
Proof.
  intros Hnot. unfold without. rewrite filter_app. simpl.
  rewrite String.eqb_refl. simpl. rewrite app_nil_r.
  apply forallb_filter_id, forallb_forall. intros f Hf.
  destruct (String.eqb path f) eqn:E; [| reflexivity].
  apply String.eqb_eq in E. now subst f.
Qed.

Lemma pool_return_fresh (p : Z) (l : list Z) :
  ~ In p l -> pool_return p l = (l ++ [p])%list.
Proof.
  intros Hnot. unfold pool_return.
  destruct (existsb (Z.eqb p) l) eqn:E; [| reflexivity].
  apply existsb_exists in E as (q & Hin & Hq). apply Z.eqb_eq in Hq. now subst q.
Qed.

(** What is left after a [try] body that makes a [pool_step], run on the
    state of a started client and followed by the teardown. *)
Lemma torn_down_after {A : Type} (body : M A) (link : string) (port : Z)
    (rest : list Z) (s s' : State) (r : Result A) :
  keeps port body ->
  free_ports s = port :: rest ->
  ~ In port rest ->
  ~ In (tmp_path env) (files s) ->
  try_finally body (teardown (Some tt) (tmp_path env) port) (launched link port rest s)
  = (r, s') ->
  r <> Hang ->
  free_ports s' = (rest ++ [port])%list /\ files s' = files s.
Proof.
  intros Hkeeps Hfree Hport Hpath Hrun Hr.
  unfold try_finally in Hrun. specialize (Hkeeps (launched link port rest s)).
  destruct (body (launched link port rest s)) as [r1 s1]. simpl in Hkeeps.
  destruct Hkeeps as [F1 P1].
  destruct (teardown_runs (tmp_path env) port s1) as (s2 & E2 & _ & F2 & P2 & _).
  assert (s' = s2) as ->.
  { destruct r1; rewrite ?E2 in Hrun; inversion Hrun; subst; congruence. }
  rewrite F2, P2, F1. split.
  - destruct P1 as [-> | ->]; rewrite ?pool_return_idem; now apply pool_return_fresh.
  - now apply without_appended.
Qed.

Lemma permutation_back (p : Z) (rest : list Z) :
  Permutation (p :: rest) (rest ++ [p]).
Proof. apply Permutation_cons_append. Qed.



(** *** Stopping the client *)


(** *** Waiting for the listener *)

Lemma after_refused_fields (port : Z) (poll_interval : float) (n : nat) (s : State) :
  log (after_refused port poll_interval n s)
  = (log s ++ refused_log port poll_interval n)%list
  /\ connects (after_refused port poll_interval n s) = (connects s + n)%nat
  /\ clock_reads (after_refused port poll_interval n s) = (clock_reads s + n)%nat
  /\ files (after_refused port poll_interval n s) = files s
  /\ free_ports (after_refused port poll_interval n s) = free_ports s
  /\ polls (after_refused port poll_interval n s) = polls s
  /\ requests (after_refused port poll_interval n s) = requests s.
Proof.
  revert s. induction n as [| n IH]; intros s; simpl.
  - rewrite app_nil_r, !Nat.add_0_r. repeat split.
  - destruct (IH (emit (EvSleep poll_interval)
                    (emit (EvConnect port false) (count_connect (count_clock s)))))
      as (L & C & K & F & FP & P & R).
    rewrite L, C, K, F, FP, P, R. simpl.
    rewrite <- !app_assoc. simpl. repeat split; lia.
Qed.

(** The loop after [n] refused connections made before the deadline. *)
Lemma wait_for_port_loop_refused (host : string) (port : Z)
    (deadline poll_interval : float) (n : nat) :
  forall (fuel : nat) (s : State),
    (forall i, (i < n)%nat ->
               (clock env (clock_reads s + i) <? deadline)%float = true) ->
    (forall i, (i < n)%nat -> connect_ok env (connects s + i) = false) ->
    wait_for_port_loop (n + fuel) host port deadline poll_interval s
    = wait_for_port_loop fuel host port deadline poll_interval
        (after_refused port poll_interval n s).
Proof.
  induction n as [| n IH]; intros fuel s Hclock Hrefused; [reflexivity |].
  cbn [Nat.add wait_for_port_loop after_refused].
  unfold bind at 1. unfold perf_counter.
  pose proof (Hclock 0%nat (Nat.lt_0_succ _)) as H0. rewrite Nat.add_0_r in H0.
  rewrite H0. unfold bind at 1. unfold create_connection.
  pose proof (Hrefused 0%nat (Nat.lt_0_succ _)) as C0.
  cbn [connects count_clock]. rewrite Nat.add_0_r in C0. rewrite C0.
  unfold bind at 1. unfold sleep, act.
  apply IH.
  - intros i Hi. cbn [clock_reads emit count_connect count_clock].
    replace (S (clock_reads s) + i)%nat with (clock_reads s + S i)%nat by lia.
    apply Hclock. lia.
  - intros i Hi. cbn [connects emit count_connect count_clock].
    replace (S (connects s) + i)%nat with (connects s + S i)%nat by lia.
    apply Hrefused. lia.
Qed.

(** X4. [_wait_for_port] gives up at the deadline: when the first [n]
    connections are refused, each tried while the clock was below
    [start + max_wait], and the next reading of the clock is not below it,
    the function returns [False] after exactly these [n] attempts, each
    followed by a sleep of [poll_interval]; with a clock already at the
    deadline ([n = 0]) no connection is tried at all. *)
Theorem wait_for_port_gives_up_at_deadline (fuel n : nat) (host : string)
    (port : Z) (max_wait poll_interval : float) (s : State) :
  let deadline := (clock env (clock_reads s) + max_wait)%float in
  (n < fuel)%nat ->
  (forall i, (i < n)%nat ->
             (clock env (clock_reads s + 1 + i) <? deadline)%float = true) ->
  (clock env (clock_reads s + 1 + n) <? deadline)%float = false ->
  (forall i, (i < n)%nat -> connect_ok env (connects s + i) = false) ->
  exists s',
    _wait_for_port fuel host port max_wait poll_interval s = (Done false, s')
    /\ log s' = (log s ++ refused_log port poll_interval n)%list
    /\ connects s' = (connects s + n)%nat
    /\ clock_reads s' = (clock_reads s + n + 2)%nat
    /\ requests s' = requests s
    /\ free_ports s' = free_ports s
    /\ files s' = files s.
Proof.
  cbn zeta. intros Hfuel Hclock Hend Hrefused.
  unfold _wait_for_port, bind at 1, perf_counter.
  replace fuel with (n + S (fuel - n - 1))%nat by lia.
  rewrite wait_for_port_loop_refused.
  - destruct (after_refused_fields port poll_interval n (count_clock s))
      as (L & C & K & F & FP & P & R).
    cbn [wait_for_port_loop]. unfold bind at 1. unfold perf_counter.
    rewrite K. cbn [clock_reads count_clock].
    replace (S (clock_reads s) + n)%nat with (clock_reads s + 1 + n)%nat by lia.
    rewrite Hend. eexists. split; [reflexivity |].
    cbn [log connects clock_reads requests free_ports files count_clock].
    rewrite L, C, K, F, FP, R. cbn [log connects clock_reads requests free_ports
      files count_clock]. repeat split; lia.
  - intros i Hi. cbn [clock_reads count_clock].
    replace (S (clock_reads s) + i)%nat with (clock_reads s + 1 + i)%nat by lia.
    now apply Hclock.
  - intros i Hi. cbn [connects count_clock]. now apply Hrefused.
Qed.

(** X5. [_wait_for_port] returns [True] at the first connection that is
    accepted, when it and the [n] refused ones before it were all tried
    while the clock was below [start + max_wait]; nothing is tried after
    it. *)
Theorem wait_for_port_returns_at_first_connection (fuel n : nat) (host : string)
    (port : Z) (max_wait poll_interval : float) (s : State) :
  let deadline := (clock env (clock_reads s) + max_wait)%float in
  (n < fuel)%nat ->
  (forall i, (i <= n)%nat ->
             (clock env (clock_reads s + 1 + i) <? deadline)%float = true) ->
  (forall i, (i < n)%nat -> connect_ok env (connects s + i) = false) ->
  connect_ok env (connects s + n) = true ->
  exists s',
    _wait_for_port fuel host port max_wait poll_interval s = (Done true, s')
    /\ log s' = (log s ++ refused_log port poll_interval n
                 ++ [EvConnect port true])%list
    /\ connects s' = (connects s + n + 1)%nat
    /\ clock_reads s' = (clock_reads s + n + 2)%nat
    /\ requests s' = requests s
    /\ free_ports s' = free_ports s
    /\ files s' = files s.
Proof.
  cbn zeta. intros Hfuel Hclock Hrefused Hok.
  unfold _wait_for_port, bind at 1, perf_counter.
  replace fuel with (n + S (fuel - n - 1))%nat by lia.
  rewrite wait_for_port_loop_refused.
  - destruct (after_refused_fields port poll_interval n (count_clock s))
      as (L & C & K & F & FP & P & R).
    cbn [wait_for_port_loop]. unfold bind at 1. unfold perf_counter.
    rewrite K. cbn [clock_reads count_clock].
    replace (S (clock_reads s) + n)%nat with (clock_reads s + 1 + n)%nat by lia.
    rewrite (Hclock n (Nat.le_refl _)).
    unfold bind at 1. unfold create_connection.
    cbn [connects count_clock]. rewrite C. cbn [connects count_clock].
    rewrite Hok. eexists. split; [reflexivity |].
    cbn [log connects clock_reads requests free_ports files emit count_connect
           count_clock].
    rewrite L, C, K, F, FP, R. cbn [log connects clock_reads requests free_ports
      files count_clock]. rewrite <- app_assoc. repeat split; lia.
  - intros i Hi. cbn [clock_reads count_clock].
    replace (S (clock_reads s) + i)%nat with (clock_reads s + 1 + i)%nat by lia.
    apply Hclock. lia.
  - intros i Hi. cbn [connects count_clock]. now apply Hrefused.
Qed.

End Engine.

Arguments Reply : clear implicits.
Arguments Env : clear implicits.

(** ** Scenarios

    Collaborators and environments to run the two programs on.  A response
    is its HTTP status: it is true in Python's sense below 400, and valid
    when it is 200 or 204.  The parser reads the scheme of the link.  The
    waits are kept short (0.4 s of startup wait in steps of 0.2 s, 2 s for
    the listener) so that a log fits on a page; the clock advances by
    [tick] seconds between two readings.  The interpreter adds floats as
    CPython 3.11 does, unless [on_python] says otherwise. *)

Definition status_truthy (r : Z) : bool := r <? 400.

Definition status_valid (r : Z) (min_size : Z) (url : string) : bool :=
  (r =? 200) || (r =? 204).

Definition parse_by_scheme (link : string) : option (list (string * string)) :=
  if String.prefix "hysteria2://" link then Some [("protocol", "hysteria2")]
  else if String.prefix "hysteria://" link then Some [("protocol", "hysteria")]
  else if String.prefix "vless://" link then Some [("protocol", "vless")]
  else None.

Definition probe_url : string := "https://www.gstatic.com/generate_204".

Definition scenario_cfg (strong : bool) (attempts : Z)
    (test_urls test_urls_https : list string) (rounds : Z) : Config :=
  {| STRONG_STYLE_TEST := strong;
     STRONG_ATTEMPTS := attempts;
     STRONG_MAX_RESPONSE_TIME := 5%float;
     MAX_RESPONSE_TIME := 10%float;
     MAX_LATENCY_MS := 2000%float;
     MIN_RESPONSE_SIZE := 0;
     TEST_URLS := test_urls;
     TEST_URLS_HTTPS := test_urls_https;
     _CLIENT_TEST_HTTPS := probe_url;
     STABILITY_CHECKS := rounds;
     STABILITY_CHECK_DELAY := 1%float;
     REQUESTS_PER_URL := 1;
     REQUEST_DELAY := 0.5%float;
     MIN_SUCCESSFUL_REQUESTS := 1;
     MIN_SUCCESSFUL_URLS := 1;
     STRICT_MODE := true;
     STRICT_MODE_REQUIRE_ALL := true;
     REQUIRE_HTTPS := true;
     HYSTERIA_STARTUP_WAIT := 0.4%float;
     HYSTERIA_PORT_WAIT := 2%float;
     HYSTERIA_STARTUP_POLL := 0.2%float |}.

Definition strict_cfg (attempts : Z) : Config := scenario_cfg true attempts [] [] 1.

Definition answered (status : Z) (seconds : float) : Reply Z :=
  mkReply (Some status) seconds None.

Definition transport_error : Reply Z :=
  mkReply None 12%float (Some "timed out").

Definition config_path : string := "/tmp/hysteria_k3x.yaml".

Definition scenario_env (write_fails : bool) (popen_outcome : PopenOutcome)
    (poll_exited connect_ok : nat -> bool) (tick : float) (reply : nat -> Reply Z)
    (download : Download) : Env Z :=
  mkEnv config_path write_fails popen_outcome poll_exited connect_ok
    (fun n => (Py.float_of_Z (Z.of_nat n) * tick)%float) reply
    false false false download Py.Plain.

(** The same environment under another interpreter. *)
Definition on_python (impl : Py.Summation) (e : Env Z) : Env Z :=
  mkEnv (tmp_path e) (write_fails e) (popen_outcome e) (poll_exited e)
    (connect_ok e) (clock e) (reply e) (terminate_fails e) (wait_times_out e)
    (kill_fails e) (download e) impl.

Definition no_download : Download := mkDownload false 200 [] false.

(** The client starts, stays alive and opens its listener. *)
Definition healthy_env (reply : nat -> Reply Z) : Env Z :=
  scenario_env false Started (fun _ => false) (fun _ => true) 1%float reply
    no_download.

(** The replies of a list of attempts; a transport error after them. *)
Definition replies (l : list (Reply Z)) (i : nat) : Reply Z :=
  nth i l transport_error.

Definition link : string := "hysteria2://secret@example.org:443".

(** Two free ports, nothing on disk, nothing done yet. *)
Definition idle : State := mkState [20000; 20001] [] [] 0 0 0 0.

(** The state in which the first probe is made, in a healthy environment. *)
Definition probing : State :=
  mkState [20001] [config_path]
    [EvTakePort (Some 20000); EvMkstemp config_path;
     EvWriteConfig config_path link 20000; EvPopen config_path true;
     EvPoll false; EvSleep 0.2%float; EvPoll false; EvSleep 0.2%float;
     EvConnect 20000 true]
    2 1 0 2.

(** A pool with no free port. *)
Definition exhausted : State := mkState [] [] [] 0 0 0 0.

(** The client is gone at its second poll. *)
Definition dying_env : Env Z :=
  scenario_env false Started (fun i => (1 <=? i)%nat) (fun _ => true) 1%float
    (replies []) no_download.

(** Scenario B: three attempts, answered in 1.0 s and 1.5 s, then a
    transport error; [max_ok_time] is 5 s. *)
Definition scenario_B : Env Z :=
  healthy_env (replies [answered 204 1%float; answered 204 1.5%float; transport_error]).

(** The verdict of the strict protocol for a given [STRONG_ATTEMPTS] and
    given replies. *)
Definition strict_verdict (attempts : Z) (l : list (Reply Z)) : Result bool :=
  match fst (check_hysteria_key status_truthy status_valid parse_by_scheme
               (strict_cfg attempts) (healthy_env (replies l)) 10 link idle) with
  | Done (_, ok, _) => Done ok
  | Raised e => Raised e
  | Hang => Hang
  end.

(** The verdict of the strict protocol where an answer in 1.0 s is followed
    by one in 6.0 s, above the limit of 5 s, and by a transport error. *)
Definition scenario_slow : Env Z :=
  healthy_env (replies [answered 204 1%float; answered 204 6%float; transport_error]).

(** One case of the pass rule: with [STRONG_ATTEMPTS = attempts] and the
    replies [l], the task makes [attempts] attempts, [successes] of them
    are successes under the limit of 5 s, and the verdict is [ok]. *)
Definition strict_case (attempts : Z) (l : list (Reply Z)) (successes : Z)
    (ok : bool) : Prop :=
  STRONG_STYLE_TEST (strict_cfg attempts) = true
  /\ client_ready parse_by_scheme (strict_cfg attempts) (healthy_env (replies l))
       10 link 20000 idle probing
  /\ attempts_total (strict_cfg attempts) = attempts
  /\ Z.of_nat (List.length
                 (strict_good status_truthy status_valid (strict_cfg attempts)
                    (healthy_env (replies l)) attempts 5%float probing))
     = successes
  /\ exists m s',
       check_hysteria_key status_truthy status_valid parse_by_scheme
         (strict_cfg attempts) (healthy_env (replies l)) 10 link idle
       = (Done (link, ok, m), s')
       /\ total_requests m = attempts
       /\ requests s' = Z.to_nat attempts.

(** Four completed futures, with a limit of 2000 ms.  The first passed with
    samples of 3.0 s and 0.5 s: the average is 1750 ms, the first and the
    largest sample are above the limit.  The second passed with samples of
    1.0 s and 3.5 s: the average is 2250 ms, the first and the smallest
    sample are below the limit.  The third failed its check, with one fast
    sample.  The fourth raised. *)
Definition batch : list (string * (Py.Exc + string * bool * Metrics)) :=
  [("hysteria2://a@h:1", inr ("hysteria2://a@h:1", true, mkMetrics [3%float; 0.5%float] 1 0 3 2));
   ("hysteria2://b@h:2", inr ("hysteria2://b@h:2", true, mkMetrics [1%float; 3.5%float] 1 0 2 2));
   ("hysteria2://c@h:3", inr ("hysteria2://c@h:3", false, mkMetrics [0.25%float] 0 0 3 0));
   ("hysteria2://d@h:4", inl Py.PermissionError)].

Definition batch_lines : list (string * string) :=
  [("hysteria2://a@h:1", "hysteria2://a@h:1#first");
   ("hysteria2://b@h:2", "hysteria2://b@h:2#second")].

(** The environment of the result loop, under either interpreter. *)
Definition interpreter (impl : Py.Summation) : Env Z :=
  on_python impl (healthy_env (replies [])).

(** What the result loop makes of the batch: only the pass whose average is
    1750 ms is written and counted; the pass whose average is 2250 ms is
    left out; the progress line ends on OK: 1, FAIL: 2, the totals of the
    last future that returned, with four futures completed. *)
Definition batch_outcome (impl : Py.Summation) : Prop :=
  let c := main_collect (strict_cfg 3) (interpreter impl) batch_lines batch in
  mean_ms (interpreter impl) [3%float; 0.5%float] = 1750%float
  /\ mean_ms (interpreter impl) [1%float; 3.5%float] = 2250%float
  /\ MAX_LATENCY_MS (strict_cfg 3) = 2000%float
  /\ available c = [("hysteria2://a@h:1#first", 1750%float)]
  /\ option_map fst (description c) = Some 1
  /\ description c = Some (1, 2)
  /\ completed c = 4
  /\ lines_out c = ["hysteria2://a@h:1#first"]
  /\ top100_lines c = ["hysteria2://a@h:1#first"]
  /\ (exists link0 link metrics,
        In (link0, inr (link, true, metrics)) batch
        /\ (mean_ms (interpreter impl) (response_times metrics)
            <=? MAX_LATENCY_MS (strict_cfg 3))%float = true
        /\ "hysteria2://a@h:1#first" = full_line batch_lines link)
  /\ available (collect_one (strict_cfg 3) (interpreter impl) batch_lines c
                  ("hysteria2://b@h:2",
                   inr ("hysteria2://b@h:2", true,
                        mkMetrics [1%float; 3.5%float] 1 0 2 2)))
     = available c.


(** A speed test in quick mode: two latency probes, then a download. *)
Definition small_url : string := "https://speed.example.org/1MB.bin".

Definition quick_env (tick : float) (download : Download) : Env Z :=
  scenario_env false Started (fun _ => false) (fun _ => true) tick
    (replies [answered 204 0.2%float; answered 204 0.3%float]) download.

Definition quick_test (env : Env Z) : M (option (string * float)) :=
  speed_test_hysteria_key status_truthy status_valid parse_by_scheme (strict_cfg 3)
    env 10 link 10%float "latency" 2 probe_url "quick" 30 small_url "".

(** The state of that speed test when the latency probes are done. *)
Definition quick_probed : State :=
  mkState [20001] [config_path]
    [EvTakePort (Some 20000); EvMkstemp config_path;
     EvWriteConfig config_path link 20000; EvPopen config_path true;
     EvPoll false; EvSleep 0.2%float; EvPoll false; EvSleep 0.2%float;
     EvConnect 20000 true; EvRequest probe_url; EvRequest probe_url]
    2 1 2 5.

(** Two chunks, 5000 bytes, read within 0.15 s. *)
Definition burst : Download := mkDownload false 200 [4096%nat; 904%nat] false.

Definition burst_read : State :=
  mkState [20001] [config_path]
    [EvTakePort (Some 20000); EvMkstemp config_path;
     EvWriteConfig config_path link 20000; EvPopen config_path true;
     EvPoll false; EvSleep 0.2%float; EvPoll false; EvSleep 0.2%float;
     EvConnect 20000 true; EvRequest probe_url; EvRequest probe_url;
     EvDownload small_url]
    2 1 2 8.

(** One chunk of 1000 bytes, read in exactly one second. *)
Definition trickle : Download := mkDownload false 200 [1000%nat] false.

(** The client runs but never opens its listener. *)
Definition deaf_env : Env Z :=
  scenario_env false Started (fun _ => false) (fun _ => false) 1%float
    (replies []) no_download.

(** Stability protocol, one round, HTTPS required, and only a plain-http
    probe URL, which answers. *)
Definition http_only_cfg (rounds : Z) : Config :=
  scenario_cfg false 3 ["http://example.com/"] [] rounds.

Definition http_only_env : Env Z :=
  healthy_env (fun _ => answered 200 0.25%float).

(** Writing the config file fails. *)
Definition full_disk_env : Env Z :=
  scenario_env true Started (fun _ => false) (fun _ => true) 1%float
    (replies []) no_download.

(** The client executable exists but cannot be run. *)
Definition unrunnable_env : Env Z :=
  scenario_env false Unrunnable (fun _ => false) (fun _ => true) 1%float
    (replies []) no_download.

(** The listener accepts the third connection; the clock advances by half
    a second between two readings. *)
Definition slow_listener_env : Env Z :=
  scenario_env false Started (fun _ => false) (fun i => (2 <=? i)%nat) 0.5%float
    (replies []) no_download.

(** ** The claims on the scenarios *)

(** C10 on a VLESS link: the call changes nothing. *)
Lemma check_rejected_link_leaves_state_witness :
  rejected_link parse_by_scheme "vless://id@example.org:443"
  /\ check_hysteria_key status_truthy status_valid parse_by_scheme (strict_cfg 3)
       (healthy_env (replies [])) 10 "vless://id@example.org:443" idle
     = (Done ("vless://id@example.org:443", false, metrics_init), idle).
Proof.
  assert (rejected_link parse_by_scheme "vless://id@example.org:443") as H.
  { right. exists [("protocol", "vless")].
    split; [reflexivity |]. split; intros E; cbv in E; discriminate E. }
  split; [exact H |].
  exact (check_rejected_link_leaves_state status_truthy status_valid
           parse_by_scheme (strict_cfg 3) (healthy_env (replies [])) 10
           "vless://id@example.org:443" idle H).
Defined.

(** The link of the scenarios is a Hysteria link. *)
Lemma link_is_hysteria : hysteria_link parse_by_scheme link.
Proof. exists [("protocol", "hysteria2")], "hysteria2". repeat split; auto. Qed.

(** C6 on the empty pool: one failed [take_port], nothing else. *)
Lemma check_pool_exhausted_witness :
  hysteria_link parse_by_scheme link
  /\ free_ports exhausted = []
  /\ check_hysteria_key status_truthy status_valid parse_by_scheme (strict_cfg 3)
       (healthy_env (replies [])) 10 link exhausted
     = (Done (link, false, metrics_init),
        mkState [] [] [EvTakePort None] 0 0 0 0).
Proof.
  split; [exact link_is_hysteria |]. split; [reflexivity |].
  exact (check_pool_exhausted status_truthy status_valid parse_by_scheme
           (strict_cfg 3) (healthy_env (replies [])) 10 link exhausted
           link_is_hysteria eq_refl).
Defined.


(** In a healthy environment the task reaches the probes in state
    [probing], whatever the protocol settings. *)
Lemma healthy_client_ready (cfg_strong : bool) (attempts rounds : Z)
    (urls urls_https : list string) (reply : nat -> Reply Z) :
  client_ready parse_by_scheme
    (scenario_cfg cfg_strong attempts urls urls_https rounds)
    (healthy_env reply) 10 link 20000 idle probing.
Proof.
  exists [20001].
  exists (mkState [20001] [config_path]
            [EvTakePort (Some 20000); EvMkstemp config_path;
             EvWriteConfig config_path link 20000; EvPopen config_path true;
             EvPoll false; EvSleep 0.2%float; EvPoll false; EvSleep 0.2%float]
            2 0 0 0).
  split; [exact link_is_hysteria |].
  repeat split; vm_compute; reflexivity.
Qed.

(** C3 on four runs: two successes pass and one success fails, out of
    three attempts and out of five alike. *)
Lemma strict_pass_iff_two_successes_witness :
  strict_case 3 [answered 204 1%float; transport_error; answered 204 1.5%float]
    2 true
  /\ strict_case 5 [transport_error; answered 204 1%float; transport_error;
                    transport_error; answered 204 1.5%float] 2 true
  /\ strict_case 3 [answered 204 1%float; transport_error; transport_error]
       1 false
  /\ strict_case 5 [transport_error; transport_error; answered 204 1%float;
                    transport_error; transport_error] 1 false.
Proof.
  split; [| split; [| split]].
  all: match goal with
       | |- strict_case ?a ?l _ _ =>
           destruct (strict_pass_iff_two_successes status_truthy status_valid
                       parse_by_scheme (strict_cfg a) (healthy_env (replies l))
                       10 link 20000 idle probing eq_refl
                       (healthy_client_ready true a 1 [] [] _))
             as (ok & m & s' & Hrun & Hn & _ & Htotal & Hrequests & Hok);
           split; [reflexivity |];
           split; [exact (healthy_client_ready true a 1 [] [] _) |];
           split; [exact Hn |];
           split; [vm_compute; reflexivity |];
           exists m, s'; split; [| split; [exact Htotal | exact Hrequests]]
       end.
  1, 2: assert (ok = true) as Hpass
          by (apply Hok; vm_compute; discriminate);
        rewrite Hpass in Hrun; exact Hrun.
  all: assert (ok = false) as Hfail
         by (destruct ok; [| reflexivity];
             exfalso; apply (proj1 Hok eq_refl); reflexivity);
       rewrite Hfail in Hrun; exact Hrun.
Defined.

(** The same verdicts, run; and a fifth: an answer above the limit and an
    invalid answer are no successes. *)
Example strict_two_of_three_and_two_of_five :
  strict_verdict 3 [answered 204 1%float; transport_error; answered 204 1.5%float]
  = Done true
  /\ strict_verdict 5 [transport_error; answered 204 1%float; transport_error;
                       transport_error; answered 204 1.5%float]
     = Done true
  /\ strict_verdict 3 [answered 204 1%float; transport_error; transport_error]
     = Done false
  /\ strict_verdict 5 [transport_error; transport_error; answered 204 1%float;
                       transport_error; transport_error]
     = Done false
  /\ strict_verdict 5 [answered 204 1%float; answered 204 6%float;
                       answered 500 1%float; transport_error; transport_error]
     = Done false.
Proof. repeat split; vm_compute; reflexivity. Qed.

(** C4 on Scenario B: the limit is 5 s, the samples are 1.0 s and 1.5 s,
    their average is 1.25 s, and the candidate passes.  With the second
    answer in 6 s, above the limit, the only sample is 1.0 s and the
    candidate fails. *)
Lemma strict_samples_are_counted_attempts_witness :
  STRONG_STYLE_TEST (strict_cfg 3) = true
  /\ client_ready parse_by_scheme (strict_cfg 3) scenario_B 10 link 20000 idle probing
  /\ client_ready parse_by_scheme (strict_cfg 3) scenario_slow 10 link 20000 idle
       probing
  /\ max_ok_time (strict_cfg 3) = 5%float
  /\ (0 <? 5)%float = true
  /\ (1.5 <=? 5)%float = true
  /\ counted status_truthy status_valid (strict_cfg 3) 5%float (answered 204 6%float)
     = false
  /\ counted status_truthy status_valid (strict_cfg 3) 5%float transport_error
     = false
  /\ (exists m s',
        check_hysteria_key status_truthy status_valid parse_by_scheme (strict_cfg 3)
          scenario_B 10 link idle
        = (Done (link, true, m), s')
        /\ response_times m = [1%float; 1.5%float]
        /\ successful_requests m = 2
        /\ average scenario_B (response_times m) = 1.25%float)
  /\ (exists m s',
        check_hysteria_key status_truthy status_valid parse_by_scheme (strict_cfg 3)
          scenario_slow 10 link idle
        = (Done (link, false, m), s')
        /\ response_times m = [1%float]).
Proof.
  split; [reflexivity |].
  split; [exact (healthy_client_ready true 3 1 [] [] _) |].
  split; [exact (healthy_client_ready true 3 1 [] [] _) |].
  destruct (strict_samples_are_counted_attempts status_truthy status_valid
              parse_by_scheme (strict_cfg 3) scenario_B 10 link 20000 idle probing
              eq_refl (healthy_client_ready true 3 1 [] [] _))
    as (Hlimit & Hiff & Hle & Hslow & ok & m & s' & Hrun & Htimes & Hok & Hcount).
  destruct (strict_samples_are_counted_attempts status_truthy status_valid
              parse_by_scheme (strict_cfg 3) scenario_slow 10 link 20000 idle probing
              eq_refl (healthy_client_ready true 3 1 [] [] _))
    as (_ & _ & _ & _ & ok' & m' & s'' & Hrun' & Htimes' & Hok' & _).
  split; [exact Hlimit |].
  split; [reflexivity |].
  split; [exact (Hle (answered 204 1.5%float) eq_refl eq_refl eq_refl) |].
  split; [exact (Hslow (answered 204 6%float) eq_refl eq_refl) |].
  split.
  { destruct (counted status_truthy status_valid (strict_cfg 3) 5%float
                transport_error) eqn:E; [| reflexivity].
    apply Hiff in E. destruct E as ((resp & R & _) & _). discriminate R. }
  assert (response_times m = [1%float; 1.5%float]) as Ht by exact Htimes.
  assert (response_times m' = [1%float]) as Ht' by exact Htimes'.
  rewrite Ht in Hok, Hcount. rewrite Ht' in Hok'.
  assert (ok = true) as Hpass by exact Hok.
  assert (ok' = false) as Hfail by exact Hok'.
  rewrite Hpass in Hrun. rewrite Hfail in Hrun'.
  split.
  - exists m, s'. split; [exact Hrun |]. split; [exact Ht |].
    split; [exact (Hcount Hpass) |]. rewrite Ht. vm_compute. reflexivity.
  - exists m', s''. split; [exact Hrun' | exact Ht'].
Defined.

(** Scenario B, run: the candidate passes, the samples are the two elapsed
    times, their average is 1.25 s, that is 1250 ms, under either
    interpreter. *)
Example scenario_B_runs :
  fst (check_hysteria_key status_truthy status_valid parse_by_scheme (strict_cfg 3)
         scenario_B 10 link idle)
  = Done (link, true, mkMetrics [1%float; 1.5%float] 1 0 3 2)
  /\ max_ok_time (strict_cfg 3) = 5%float
  /\ average (interpreter Py.Plain) [1%float; 1.5%float] = 1.25%float
  /\ average (interpreter Py.Compensated) [1%float; 1.5%float] = 1.25%float
  /\ latency_ms (interpreter Py.Plain) (mkMetrics [1%float; 1.5%float] 1 0 3 2)
     = 1250%float
  /\ latency_ms (interpreter Py.Compensated) (mkMetrics [1%float; 1.5%float] 1 0 3 2)
     = 1250%float.
Proof. repeat split; vm_compute; reflexivity. Qed.

(** C9 on the batch, under either interpreter: the average decides, not
    the first, the smallest or the largest sample. *)
Lemma latency_filter_on_passing_candidates_witness :
  batch_outcome Py.Plain /\ batch_outcome Py.Compensated.
Proof.
  split.
  all: match goal with
       | |- batch_outcome ?impl =>
           unfold batch_outcome; cbn zeta;
           destruct (latency_filter_on_passing_candidates (strict_cfg 3)
                       (interpreter impl) batch_lines batch)
             as (Hav & Hshown & Hlines & Hleft);
           assert (mean_ms (interpreter impl) [1%float; 3.5%float] = 2250%float)
             as Hslow by (vm_compute; reflexivity)
       end.
  all: split; [vm_compute; reflexivity |].
  all: split; [exact Hslow |].
  all: split; [reflexivity |].
  all: split; [rewrite Hav; vm_compute; reflexivity |].
  all: split; [rewrite Hshown; vm_compute; reflexivity |].
  all: split; [vm_compute; reflexivity |].
  all: split; [vm_compute; reflexivity |].
  all: split; [vm_compute; reflexivity |].
  all: split; [vm_compute; reflexivity |].
  all: split;
         [apply Hlines; left; vm_compute; left; reflexivity
         | apply Hleft; cbn [response_times]; rewrite Hslow; vm_compute;
           reflexivity].
Defined.

(** The quick speed test reaches the score with the samples 200 ms and
    300 ms, whether the clock ticks every 0.05 s or every 0.5 s. *)
Lemma quick_speed_probed (tick : float) (dl : Download) :
  tick = 0.05%float \/ tick = 0.5%float ->
  speed_probed status_truthy status_valid parse_by_scheme (strict_cfg 3)
    (quick_env tick dl) 10 link 20000 10%float 2 probe_url idle
    [200%float; 300%float] quick_probed.
Proof.
  intros Htick.
  exists [20001].
  exists (mkState [20001] [config_path]
            [EvTakePort (Some 20000); EvMkstemp config_path;
             EvWriteConfig config_path link 20000; EvPopen config_path true;
             EvPoll false; EvSleep 0.2%float; EvPoll false; EvSleep 0.2%float]
            2 0 0 0).
  exists (mkState [20001] [config_path]
            [EvTakePort (Some 20000); EvMkstemp config_path;
             EvWriteConfig config_path link 20000; EvPopen config_path true;
             EvPoll false; EvSleep 0.2%float; EvPoll false; EvSleep 0.2%float;
             EvConnect 20000 true]
            2 1 0 2).
  split; [exact link_is_hysteria |].
  destruct Htick as [-> | ->]; repeat split; vm_compute; reflexivity.
Qed.



(** *** Where the code departs from the claims *)

(** C1 (the code departs from the claim).  When the listener does not open
    in time, [check_hysteria_key] hands the port back first and stops the
    client afterwards: [EvReturnPort] comes before [EvTerminate] in the log,
    while the client is running.  The speed test, in the same situation,
    stops the client first. *)
Theorem port_returned_before_client_stopped :
  check_hysteria_key status_truthy status_valid parse_by_scheme (strict_cfg 3)
    deaf_env 10 link idle
  = (Done (link, false, metrics_init),
     mkState [20001; 20000] []
       [EvTakePort (Some 20000); EvMkstemp config_path;
        EvWriteConfig config_path link 20000; EvPopen config_path true;
        EvPoll false; EvSleep 0.2%float; EvPoll false; EvSleep 0.2%float;
        EvConnect 20000 false; EvSleep 0.1%float;
        EvReturnPort 20000;
        EvTerminate; EvWait true; EvUnlink config_path; EvReturnPort 20000]
       2 1 0 3)
  /\ port_back_while_running false
       (log (snd (check_hysteria_key status_truthy status_valid parse_by_scheme
                    (strict_cfg 3) deaf_env 10 link idle)))
     = true
  /\ port_back_while_running false
       (log (snd (speed_test_hysteria_key status_truthy status_valid
                    parse_by_scheme (strict_cfg 3) deaf_env 10 link 10%float
                    "latency" 2 probe_url "latency" 30 "" "" idle)))
     = false.
Proof. repeat split; vm_compute; reflexivity. Qed.

(** C2 (the code departs from the claim).  With [REQUIRE_HTTPS] set and no
    https URL in the list, the single round is recorded as failed, and yet
    [check_hysteria_key] returns ok = True; with two rounds the same
    candidate is rejected. *)
Theorem single_failed_round_still_passes :
  REQUIRE_HTTPS (http_only_cfg 1) = true
  /\ has_https (http_only_cfg 1) = false
  /\ fst (stability_rounds status_truthy status_valid (http_only_cfg 1)
            http_only_env metrics_init probing)
     = Done (mkMetrics [0.25%float] 0 0 1 1, [false], Some 1)
  /\ fst (check_hysteria_key status_truthy status_valid parse_by_scheme
            (http_only_cfg 1) http_only_env 10 link idle)
     = Done (link, true, mkMetrics [0.25%float] 1 0 1 1)
  /\ fst (check_hysteria_key status_truthy status_valid parse_by_scheme
            (http_only_cfg 2) http_only_env 10 link idle)
     = Done (link, false, mkMetrics [0.25%float; 0.25%float] 0 0 2 2).
Proof. repeat split; vm_compute; reflexivity. Qed.

(** C5 (the code departs from the claim).  When writing the config fails,
    both programs return the port but leave the file [mkstemp] created on
    disk.  When [Popen] raises something other than FileNotFoundError, the
    exception leaves [check_hysteria_key] with the port still taken and the
    file still on disk. *)
Theorem config_file_left_behind :
  check_hysteria_key status_truthy status_valid parse_by_scheme (strict_cfg 3)
    full_disk_env 10 link idle
  = (Done (link, false, metrics_init),
     mkState [20001; 20000] [config_path]
       [EvTakePort (Some 20000); EvMkstemp config_path; EvReturnPort 20000]
       0 0 0 0)
  /\ speed_test_hysteria_key status_truthy status_valid parse_by_scheme
       (strict_cfg 3) full_disk_env 10 link 10%float "latency" 2 probe_url
       "latency" 30 "" "" idle
     = (Done None,
        mkState [20001; 20000] [config_path]
          [EvTakePort (Some 20000); EvMkstemp config_path; EvReturnPort 20000]
          0 0 0 0)
  /\ check_hysteria_key status_truthy status_valid parse_by_scheme (strict_cfg 3)
       unrunnable_env 10 link idle
     = (Raised Py.PermissionError,
        mkState [20001] [config_path]
          [EvTakePort (Some 20000); EvMkstemp config_path;
           EvWriteConfig config_path link 20000; EvPopen config_path false]
          0 0 0 0).
Proof. repeat split; vm_compute; reflexivity. Qed.

(** ** Further properties on the scenarios *)

Lemma idle_pool_nodup : NoDup (free_ports idle).
Proof. repeat constructor; simpl; intuition discriminate. Qed.

Lemma quick_burst_scores_nothing :
  fst (speed_test_hysteria_key status_truthy status_valid parse_by_scheme
         (strict_cfg 3) (quick_env 0.05%float burst) 10 link 10%float "latency" 2
         probe_url "quick" 30 small_url "" idle)
  = Done None.
Proof. vm_compute. reflexivity. Qed.

Lemma deaf_check_fails :
  fst (check_hysteria_key status_truthy status_valid parse_by_scheme
         (strict_cfg 3) deaf_env 10 link idle)
  = Done (link, false, metrics_init).
Proof. vm_compute. reflexivity. Qed.



(** X4 on the client that never opens its listener, with two seconds to
    wait and a clock that advances by one second: one connection is tried. *)
Lemma wait_for_port_gives_up_at_deadline_witness :
  (1 < 10)%nat
  /\ (forall i, (i < 1)%nat ->
                (clock deaf_env (clock_reads idle + 1 + i)
                 <? clock deaf_env (clock_reads idle) + 2)%float = true)
  /\ (clock deaf_env (clock_reads idle + 1 + 1)
      <? clock deaf_env (clock_reads idle) + 2)%float = false
  /\ (forall i, (i < 1)%nat -> connect_ok deaf_env (connects idle + i) = false)
  /\ exists s',
       _wait_for_port deaf_env 10 "127.0.0.1" 20000 2%float 0.1%float idle
       = (Done false, s')
       /\ log s' = [EvConnect 20000 false; EvSleep 0.1%float]
       /\ connects s' = 1%nat
       /\ clock_reads s' = 3%nat.
Proof.
  assert (forall i, (i < 1)%nat ->
                    (clock deaf_env (clock_reads idle + 1 + i)
                     <? clock deaf_env (clock_reads idle) + 2)%float = true) as Hclock
    by (intros i Hi; destruct i; [vm_compute; reflexivity | lia]).
  assert ((clock deaf_env (clock_reads idle + 1 + 1)
           <? clock deaf_env (clock_reads idle) + 2)%float = false) as Hend
    by (vm_compute; reflexivity).
  assert (forall i, (i < 1)%nat -> connect_ok deaf_env (connects idle + i) = false)
    as Hrefused by (intros i Hi; reflexivity).
  assert (1 < 10)%nat as Hfuel by lia.
  split; [exact Hfuel |]. split; [exact Hclock |]. split; [exact Hend |].
  split; [exact Hrefused |].
  destruct (wait_for_port_gives_up_at_deadline deaf_env 10 1 "127.0.0.1" 20000
              2%float 0.1%float idle Hfuel Hclock Hend Hrefused)
    as (s' & Hrun & Hlog & Hconnects & Hreads & _).
  exists s'. split; [exact Hrun |]. split; [exact Hlog |].
  split; [exact Hconnects | exact Hreads].
Defined.

(** X5 on the listener that accepts the third connection. *)
Lemma wait_for_port_returns_at_first_connection_witness :
  (2 < 10)%nat
  /\ (forall i, (i <= 2)%nat ->
                (clock slow_listener_env (clock_reads idle + 1 + i)
                 <? clock slow_listener_env (clock_reads idle) + 2)%float = true)
  /\ (forall i, (i < 2)%nat ->
                connect_ok slow_listener_env (connects idle + i) = false)
  /\ connect_ok slow_listener_env (connects idle + 2) = true
  /\ exists s',
       _wait_for_port slow_listener_env 10 "127.0.0.1" 20000 2%float 0.1%float idle
       = (Done true, s')
       /\ log s' = [EvConnect 20000 false; EvSleep 0.1%float;
                    EvConnect 20000 false; EvSleep 0.1%float;
                    EvConnect 20000 true]
       /\ connects s' = 3%nat
       /\ clock_reads s' = 4%nat.
Proof.
  assert (forall i, (i <= 2)%nat ->
                    (clock slow_listener_env (clock_reads idle + 1 + i)
                     <? clock slow_listener_env (clock_reads idle) + 2)%float = true)
    as Hclock
    by (intros i Hi; destruct i as [| [| [| i]]];
        [vm_compute; reflexivity .. | lia]).
  assert (forall i, (i < 2)%nat ->
                    connect_ok slow_listener_env (connects idle + i) = false)
    as Hrefused
    by (intros i Hi; destruct i as [| [| i]]; [reflexivity .. | lia]).
  assert (connect_ok slow_listener_env (connects idle + 2) = true) as Hok
    by reflexivity.
  assert (2 < 10)%nat as Hfuel by lia.
  split; [exact Hfuel |]. split; [exact Hclock |]. split; [exact Hrefused |].
  split; [exact Hok |].
  destruct (wait_for_port_returns_at_first_connection slow_listener_env 10 2
              "127.0.0.1" 20000 2%float 0.1%float idle Hfuel Hclock Hrefused Hok)
    as (s' & Hrun & Hlog & Hconnects & Hreads & _).
  exists s'. split; [exact Hrun |]. split; [exact Hlog |].
  split; [exact Hconnects | exact Hreads].
Defined.
